(** * The evaluation core of lox-base, embedded in Rocq

    A shallow embedding of [lox/ast.py], [lox/runtime.py] and the
    desugaring part of [lox/transformer.py].  Every Python method becomes a
    Rocq function of the same name; the interpreter state (scopes, function
    objects, standard output) is threaded explicitly, Python exceptions are
    an outcome of their own, and evaluation is indexed by a fuel counter
    because Lox programs may loop.

    Numbers are Python floats, that is IEEE binary64: [PrimFloat.float]. *)

From Stdlib Require Import ZArith String Ascii List Bool Lia Floats.
From Stdlib Require Import DecimalString DecimalZ.
From stdpp Require Import base gmap strings list.

Set Warnings "-register-all".

Open Scope string_scope.
Open Scope Z_scope.

(** ** Values and syntax trees ([ast.py]) *)

(** [Value = bool | str | float | None], plus the function objects that
    [Function.eval] binds.  A function object has an identity: [VFun id]
    refers to the [id]-th object allocated in the store. *)
Inductive Value : Type :=
  | VNil
  | VBool (b : bool)
  | VNum (x : float)
  | VStr (s : string)
  | VFun (id : nat).

(** The operators the transformer puts in the [op] field of [BinOp] and
    [UnaryOp]: the functions of Python's [operator] module that
    [runtime.py] re-exports. *)
Inductive binop : Type :=
  | op_add | op_sub | op_mul | op_truediv
  | op_gt | op_lt | op_ge | op_le | op_eq | op_ne.

Inductive unop : Type := op_neg | op_not_.

Inductive Expr : Type :=
  | BinOp (left right : Expr) (op : binop)
  | Var (name : string)
  | Literal (value : Value)
  | And (left right : Expr)
  | Or (left right : Expr)
  | UnaryOp (op : unop) (value : Expr)
  | Call (obj : Expr) (params : list Expr)
  | Assign (name : string) (value : Expr)
  | Getattr (value : Expr) (attr : string)
  | Setattr (obj : Expr) (attr : string) (value : Expr).

(** An expression may stand where a statement is expected (the transformer's
    [expr_stmt] returns the expression itself, and [for_cmd] appends the
    increment expression to a statement list): [ExprStmt]. *)
Inductive Stmt : Type :=
  | ExprStmt (expr : Expr)
  | Print (expr : Expr)
  | Return (expr : option Expr)
  | VarDef (name : string) (value : option Expr)
  | If (cond : Expr) (then_branch : Stmt) (else_branch : option Stmt)
  | While (expr : Expr) (stmt : Stmt)
  | Block (stmts : list Stmt)
  | Function (name : string) (params : list string) (body : Stmt).

Definition Program := list Stmt.

(** ** The environment ([ctx.py], which is not among the sources) *)

(** Modelled from the spec: the class [Ctx] of [lox/ctx.py] is missing; it
    is modelled after section 4.1 and the way [ast.py] and [runtime.py] use
    it.  A context is a chain of scopes, innermost first.  Scopes are
    mutable dictionaries shared by reference, so they live in the store and
    a context lists their handles; the chain itself never changes. *)
Definition Ctx := list nat.

Record LoxFunction : Type := mkLoxFunction {
  fn_name : string;
  fn_params : list string;
  fn_body : Stmt;
  fn_ctx : Ctx
}.

Record Store : Type := mkStore {
  scopes : list (gmap string Value);
  objects : list LoxFunction;
  stdout : list string
}.

(** Python exceptions.  [LoxReturn] carries the positional arguments it was
    constructed with: the class defines a method called [init], which
    Python never calls, so [LoxReturn(value)] only fills [args] and sets no
    attribute [value]. *)
Inductive exn : Type :=
  | KeyError (key : string)
  | NameError (msg : string)
  | TypeError (msg : string)
  | AttributeError (msg : string)
  | RuntimeError (msg : string)
  | ZeroDivisionError (msg : string)
  | LoxReturn (args : list Value).

(** What a computation produces: a result, a raised exception, a host
    object that is not a Lox value (a Python [int], a bound method, ...:
    the model does not follow it further), or nothing yet because the fuel
    ran out. *)
Inductive outcome (A : Type) : Type :=
  | Ok (a : A)
  | Raise (e : exn)
  | HostObject
  | OutOfFuel.
Arguments Ok {A} a.
Arguments Raise {A} e.
Arguments HostObject {A}.
Arguments OutOfFuel {A}.

(** Computations thread the store; an exception keeps the store it was
    raised in, since Python does not undo side effects. *)
Definition M (A : Type) : Type := Store -> outcome A * Store.

Definition ret {A} (a : A) : M A := fun st => (Ok a, st).
Definition raise {A} (e : exn) : M A := fun st => (Raise e, st).
Definition host_object {A} : M A := fun st => (HostObject, st).
Definition out_of_fuel {A} : M A := fun st => (OutOfFuel, st).

Definition bind {A B} (m : M A) (k : A -> M B) : M B :=
  fun st =>
    match m st with
    | (Ok a, st') => k a st'
    | (Raise e, st') => (Raise e, st')
    | (HostObject, st') => (HostObject, st')
    | (OutOfFuel, st') => (OutOfFuel, st')
    end.

Notation "'do' x <- m ; k" := (bind m (fun x => k))
  (at level 10, x name, m at level 100, k at level 200).
Notation "m ;; k" := (bind m (fun _ => k))
  (at level 100, k at level 200, right associativity).

(** [for x in xs: f(x)] and [[f(x) for x in xs]]: left to right, stopping at
    the first exception. *)
Fixpoint for_each {A} (f : A -> M unit) (xs : list A) : M unit :=
  match xs with
  | [] => ret tt
  | x :: xs' => f x ;; for_each f xs'
  end.

Fixpoint list_comp {A B} (f : A -> M B) (xs : list A) : M (list B) :=
  match xs with
  | [] => ret []
  | x :: xs' => do y <- f x ; do ys <- list_comp f xs' ; ret (y :: ys)
  end.

(** Modelled from the spec: [push(initial_bindings)] returns a new child
    scope layered on the current one. *)
Definition Ctx_push (ctx : Ctx) (initial : gmap string Value) : M Ctx :=
  fun st =>
    (Ok (length (scopes st) :: ctx),
     mkStore (scopes st ++ [initial]) (objects st) (stdout st)).

(** Modelled from the spec: [pop()] hands back the discarded scope and the
    parent; the callers keep [pop()[1]], the parent, in a local name. *)
Definition Ctx_pop (ctx : Ctx) : Ctx := tail ctx.

(** Modelled from the spec: [lookup(name)] walks outward from the innermost
    scope and returns the first match; the callers catch [KeyError]. *)
Fixpoint Ctx_lookup (st : Store) (ctx : Ctx) (name : string) : option Value :=
  match ctx with
  | [] => None
  | s :: parent =>
      match scopes st !! s with
      | Some d =>
          match d !! name with
          | Some v => Some v
          | None => Ctx_lookup st parent name
          end
      | None => Ctx_lookup st parent name
      end
  end.

Definition Ctx_getitem (ctx : Ctx) (name : string) : M Value :=
  fun st =>
    match Ctx_lookup st ctx name with
    | Some v => (Ok v, st)
    | None => (Raise (KeyError name), st)
    end.

(** The scope that holds [name], searching outward. *)
Fixpoint Ctx_holder (st : Store) (ctx : Ctx) (name : string) : option nat :=
  match ctx with
  | [] => None
  | s :: parent =>
      match scopes st !! s with
      | Some d =>
          match d !! name with
          | Some _ => Some s
          | None => Ctx_holder st parent name
          end
      | None => Ctx_holder st parent name
      end
  end.

Definition set_in_scope (s : nat) (name : string) (v : Value) (st : Store) : Store :=
  mkStore (alter (fun d => <[name := v]> d) s (scopes st)) (objects st) (stdout st).

(** Modelled from the spec: [assign(name, value)] mutates the scope that
    already binds [name] and fails like [lookup] when there is none. *)
Definition Ctx_setitem (ctx : Ctx) (name : string) (v : Value) : M unit :=
  fun st =>
    match Ctx_holder st ctx name with
    | Some s => (Ok tt, set_in_scope s name v st)
    | None => (Raise (KeyError name), st)
    end.

(** Modelled from the spec: [declare(name, value)] binds [name] in the
    innermost scope only, replacing a binding of that scope.  (A context
    always has an innermost scope; the empty chain is there for totality.) *)
Definition Ctx_var_def (ctx : Ctx) (name : string) (v : Value) : M unit :=
  fun st =>
    match ctx with
    | s :: _ => (Ok tt, set_in_scope s name v st)
    | [] => (Ok tt, st)
    end.

(** The root context of a fresh interpreter: one empty scope. *)
Definition empty_store : Store := mkStore [∅] [] [].
Definition root_ctx : Ctx := [0%nat].

(** ** Host operations ([runtime.py] and the Python built-ins it relies on) *)

(** [runtime.truthy]: a value as a boolean according to the semantics of
    Lox. *)
Definition truthy (value : Value) : bool :=
  match value with
  | VNil => false
  | VBool false => false
  | _ => true
  end.

(** [ast.is_truthy]: [not (value is False or value is None)]. *)
Definition is_truthy (value : Value) : bool :=
  negb (match value with
        | VBool false => true
        | VNil => true
        | _ => false
        end).

(** Python's own truth test, which [if], [while], [bool()] and
    [operator.not_] apply: [None], [False], a zero number and an empty
    string are false.  A [LoxFunction] defines neither [__bool__] nor
    [__len__], so it is true. *)
Definition py_bool (value : Value) : bool :=
  match value with
  | VNil => false
  | VBool b => b
  | VNum x => negb (PrimFloat.eqb x 0%float)
  | VStr s => negb (String.eqb s "")
  | VFun _ => true
  end.

(** [callable(obj)]: no Lox value is callable.  In particular a
    [LoxFunction] is not, because the class defines methods named [call]
    and no [__call__]. *)
Definition callable (obj : Value) : bool :=
  match obj with
  | VNil | VBool _ | VNum _ | VStr _ => false
  | VFun _ => false
  end.

(** [float.is_integer()] and [int(float)], on the exact value
    [m * 2 ^ e] of a finite float. *)
Definition float_is_integer (x : float) : bool :=
  match Prim2SF x with
  | S754_zero _ => true
  | S754_finite _ m e => (0 <=? e) || (Z.pos m mod 2 ^ (- e) =? 0)
  | S754_infinity _ | S754_nan => false
  end.

Definition float_to_int (x : float) : Z :=
  match Prim2SF x with
  | S754_finite s m e =>
      let a := if 0 <=? e then Z.pos m * 2 ^ e else Z.pos m / 2 ^ (- e) in
      if s then - a else a
  | _ => 0
  end.

(** [str(int)]. *)
Definition str_int (z : Z) : string := NilZero.string_of_int (Z.to_int z).

(** *** [repr(float)], which is also [str(float)]

    The shortest decimal that reads back as the same float, the closest one
    when several are as short; printed in positional notation when the
    decimal point falls within [-4 < decpt <= 16] and in exponent notation
    otherwise. *)

Fixpoint zeros (n : nat) : string :=
  match n with
  | O => ""
  | S n' => String "0" (zeros n')
  end.

Definition div_ceil (a b : Z) : Z := - ((- a) / b).

(** The integers [d] such that [d * 10 ^ k] rounds to the float
    [m * 2 ^ e]: those within half a gap of it, the bounds included when
    [m] is even (ties go to the even mantissa).  The gap below the least
    normalised mantissa is half the gap above. *)
Definition decimal_range (m : positive) (e k : Z) : Z * Z :=
  let below :=
    if Pos.eqb m 4503599627370496 && (-1074 <? e) then 1 else 2 in
  let A := 2 ^ Z.max (e - 2) 0 * 10 ^ Z.max (- k) 0 in
  let B := 2 ^ Z.max (2 - e) 0 * 10 ^ Z.max k 0 in
  let lo := (4 * Z.pos m - below) * A in
  let hi := (4 * Z.pos m + 2) * A in
  let dmin := if Z.even (Z.pos m) then div_ceil lo B else lo / B + 1 in
  let dmax := if Z.even (Z.pos m) then hi / B else div_ceil hi B - 1 in
  (Z.max dmin 1, dmax).

(** The member of a non-empty range that is nearest to the float. *)
Definition closest (m : positive) (e k : Z) (dmin dmax : Z) : Z :=
  let A := 2 ^ Z.max (e - 2) 0 * 10 ^ Z.max (- k) 0 in
  let B := 2 ^ Z.max (2 - e) 0 * 10 ^ Z.max k 0 in
  Z.min dmax (Z.max dmin ((2 * 4 * Z.pos m * A + B) / (2 * B))).

(** The coarsest decimal grid [10 ^ k] that has a point in the range, found
    from an upper bound of the decimal exponent downward. *)
Fixpoint shortest (fuel : nat) (m : positive) (e k : Z) : Z * Z :=
  let '(dmin, dmax) := decimal_range m e k in
  if dmin <=? dmax then (closest m e k dmin dmax, k)
  else match fuel with
       | O => (0, k)
       | S fuel' => shortest fuel' m e (k - 1)
       end.

(** The digits [ds] with the decimal point after the first [decpt] of
    them. *)
Definition format_short (ds : string) (decpt : Z) : string :=
  let n := Z.of_nat (String.length ds) in
  if (decpt <=? -4) || (16 <? decpt) then
    let ex := decpt - 1 in
    let mant := match ds with
                | String c EmptyString => String c EmptyString
                | String c rest => String c ("." ++ rest)
                | EmptyString => ""
                end in
    mant ++ "e" ++ (if ex <? 0 then "-" else "+")
         ++ (if Z.abs ex <? 10 then "0" else "") ++ str_int (Z.abs ex)
  else if decpt <=? 0 then "0." ++ zeros (Z.to_nat (- decpt)) ++ ds
  else if n <=? decpt then ds ++ zeros (Z.to_nat (decpt - n)) ++ ".0"
  else substring 0 (Z.to_nat decpt) ds ++ "."
       ++ substring (Z.to_nat decpt) (Z.to_nat (n - decpt)) ds.

Definition float_repr (x : float) : string :=
  match Prim2SF x with
  | S754_zero s => if s then "-0.0" else "0.0"
  | S754_infinity s => if s then "-inf" else "inf"
  | S754_nan => "nan"
  | S754_finite s m e =>
      let k0 := (Z.log2 (Z.pos m) + e + 1) * 30103 / 100000 + 2 in
      let '(d, k) := shortest 40 m e k0 in
      let ds := str_int d in
      (if s then "-" else "")
        ++ format_short ds (Z.of_nat (String.length ds) + k)
  end.

(** A [bool] is a Python [int]: in arithmetic and comparisons with floats
    it counts as 1 or 0. *)
Definition float_of_bool (b : bool) : float :=
  if b then 1%float else 0%float.

Definition as_number (v : Value) : option float :=
  match v with
  | VBool b => Some (float_of_bool b)
  | VNum x => Some x
  | _ => None
  end.

Definition is_bool (v : Value) : bool :=
  match v with
  | VBool _ => true
  | _ => false
  end.

Definition unsupported (sym : string) : exn :=
  TypeError ("unsupported operand type(s) for " ++ sym).

(** The arithmetic and ordering operators on two numbers.  Two booleans
    added, subtracted or multiplied give a Python [int], which is not a Lox
    value.  [truediv] raises on a zero divisor. *)
Definition numeric_op (op : binop) (both_bool : bool) (x y : float) : M Value :=
  match op with
  | op_add => if both_bool then host_object else ret (VNum (x + y)%float)
  | op_sub => if both_bool then host_object else ret (VNum (x - y)%float)
  | op_mul => if both_bool then host_object else ret (VNum (x * y)%float)
  | op_truediv =>
      if PrimFloat.eqb y 0%float
      then raise (ZeroDivisionError "division by zero")
      else ret (VNum (x / y)%float)
  | op_gt => ret (VBool (PrimFloat.ltb y x))
  | op_lt => ret (VBool (PrimFloat.ltb x y))
  | op_ge => ret (VBool (PrimFloat.leb y x))
  | op_le => ret (VBool (PrimFloat.leb x y))
  | op_eq => ret (VBool (PrimFloat.eqb x y))
  | op_ne => ret (VBool (negb (PrimFloat.eqb x y)))
  end.

Definition string_op (op : binop) (s t : string) : M Value :=
  match op with
  | op_add => ret (VStr (s ++ t))
  | op_sub => raise (unsupported "-")
  | op_mul => raise (TypeError "can't multiply sequence by non-int")
  | op_truediv => raise (unsupported "/")
  | op_gt => ret (VBool (String.ltb t s))
  | op_lt => ret (VBool (String.ltb s t))
  | op_ge => ret (VBool (String.leb t s))
  | op_le => ret (VBool (String.leb s t))
  | op_eq => ret (VBool (String.eqb s t))
  | op_ne => ret (VBool (negb (String.eqb s t)))
  end.

(** ** What the interpreter takes from its host

    [getattr] and [setattr] reach into Python's object model, and the
    equality and the printed form of a [LoxFunction] are generated by
    [@dataclass] from those of its fields, among them the missing classes
    [Ctx] and [Node].  The interpreter is therefore parameterised by them;
    every theorem below holds for any host.

    [Node_name] is the attribute [name] that a [Call] node inherits from the
    base class [Node] of [lox/node.py], which is missing: [Call] itself
    declares the fields [obj] and [params] only, so when [Node] provides no
    [name] (the value [None] here) reading [self.name] raises
    [AttributeError]. *)
Record Host : Type := mkHost {
  py_getattr : Value -> string -> M Value;
  py_setattr : Value -> string -> Value -> M unit;
  Node_name : option string;
  LoxFunction_eq : Store -> LoxFunction -> LoxFunction -> bool;
  LoxFunction_repr : Store -> LoxFunction -> string
}.

Section Interpreter.

Context (host : Host).

(** [operator.eq]: Python's [==].  [None] equals only itself, booleans and
    floats compare as numbers, strings by content; a function object equals
    itself, and two distinct ones are compared field by field by the
    method [@dataclass] generates. *)
Definition py_eq (st : Store) (a b : Value) : bool :=
  match a, b with
  | VNil, VNil => true
  | VStr s, VStr t => String.eqb s t
  | VFun i, VFun j =>
      if Nat.eqb i j then true
      else match objects st !! i, objects st !! j with
           | Some f, Some g => LoxFunction_eq host st f g
           | _, _ => false
           end
  | _, _ =>
      match as_number a, as_number b with
      | Some x, Some y => PrimFloat.eqb x y
      | _, _ => false
      end
  end.

(** [self.op(left_value, right_value)] for the ten binary operators. *)
Definition apply_binop (op : binop) (a b : Value) : M Value :=
  match op with
  | op_eq => fun st => (Ok (VBool (py_eq st a b)), st)
  | op_ne => fun st => (Ok (VBool (negb (py_eq st a b))), st)
  | _ =>
      match as_number a, as_number b with
      | Some x, Some y => numeric_op op (is_bool a && is_bool b) x y
      | _, _ =>
          match a, b, op with
          | VStr s, VStr t, _ => string_op op s t
          | VStr s, VBool c, op_mul => ret (VStr (if c then s else ""))
          | VBool c, VStr s, op_mul => ret (VStr (if c then s else ""))
          | _, _, _ => raise (unsupported "binary operator")
          end
      end
  end.

(** [self.op(v)] for [operator.neg] and [operator.not_].  [not_] is
    Python's [not], which applies Python's truth test; [-] of a boolean is
    a Python [int]. *)
Definition apply_unop (op : unop) (v : Value) : M Value :=
  match op with
  | op_not_ => ret (VBool (negb (py_bool v)))
  | op_neg =>
      match v with
      | VNum x => ret (VNum (- x)%float)
      | VBool _ => host_object
      | _ => raise (TypeError "bad operand type for unary -")
      end
  end.

(** [builtins.print]: one call writes one line. *)
Definition py_print (line : string) : M unit :=
  fun st => (Ok tt, mkStore (scopes st) (objects st) (stdout st ++ [line])).

(** [str(value)], as [print(value)] writes it. *)
Definition py_str (st : Store) (value : Value) : string :=
  match value with
  | VNil => "None"
  | VBool b => if b then "True" else "False"
  | VNum x => float_repr x
  | VStr s => s
  | VFun id =>
      match objects st !! id with
      | Some f => LoxFunction_repr host st f
      | None => ""
      end
  end.

Definition is_float (value : Value) : bool :=
  match value with
  | VNum _ => true
  | _ => false
  end.

Definition is_True (value : Value) : bool :=
  match value with VBool true => true | _ => false end.
Definition is_False (value : Value) : bool :=
  match value with VBool false => true | _ => false end.
Definition is_None (value : Value) : bool :=
  match value with VNil => true | _ => false end.

Definition value_is_integer (value : Value) : bool :=
  match value with
  | VNum x => float_is_integer x
  | _ => false
  end.

Definition value_int (value : Value) : Z :=
  match value with
  | VNum x => float_to_int x
  | _ => 0
  end.

(** The line [Print.eval] writes for a value. *)
Definition Print_line (st : Store) (value : Value) : string :=
  if is_True value then "true"
  else if is_False value then "false"
  else if is_None value then "nil"
  else if is_float value && value_is_integer value
       then str_int (value_int value)
  else py_str st value.

(** A new function object. *)
Definition new_LoxFunction (f : LoxFunction) : M Value :=
  fun st =>
    (Ok (VFun (length (objects st))),
     mkStore (scopes st) (objects st ++ [f]) (stdout st)).

(** [eval] for expression nodes, by recursion on the fuel: every nested
    [eval] takes one unit.  No expression runs a statement, because
    [Call.eval] invokes only what [callable] accepts. *)
Fixpoint eval (fuel : nat) (e : Expr) (ctx : Ctx) {struct fuel} : M Value :=
  match fuel with
  | O => out_of_fuel
  | S n =>
      match e with
      | BinOp lhs rhs op =>
          do left_value <- eval n lhs ctx;
          do right_value <- eval n rhs ctx;
          apply_binop op left_value right_value
      | Var name =>
          fun st =>
            match Ctx_getitem ctx name st with
            | (Raise (KeyError _), st') =>
                (Raise (NameError ("variável " ++ name ++ " não existe!")), st')
            | r => r
            end
      | Literal value => ret value
      | And lhs rhs =>
          do left_value <- eval n lhs ctx;
          if negb (is_truthy left_value) then ret left_value
          else eval n rhs ctx
      | Or lhs rhs =>
          do left_value <- eval n lhs ctx;
          if is_truthy left_value then ret left_value
          else eval n rhs ctx
      | UnaryOp op value =>
          do v <- eval n value ctx;
          apply_unop op v
      | Call obj params =>
          do o <- eval n obj ctx;
          do ps <- list_comp (fun param => eval n param ctx) params;
          if callable o then host_object
          else match Node_name host with
               | Some name => raise (TypeError (name ++ " não é uma função!"))
               | None =>
                   raise (AttributeError "'Call' object has no attribute 'name'")
               end
      | Assign name value =>
          do v <- eval n value ctx;
          Ctx_setitem ctx name v ;;
          ret v
      | Getattr value attr =>
          do o <- eval n value ctx;
          py_getattr host o attr
      | Setattr obj attr value =>
          do o <- eval n obj ctx;
          do v <- eval n value ctx;
          py_setattr host o attr v ;;
          ret v
      end
  end.

(** [eval] for statement nodes. *)
Fixpoint exec (fuel : nat) (s : Stmt) (ctx : Ctx) {struct fuel} : M unit :=
  match fuel with
  | O => out_of_fuel
  | S n =>
      match s with
      | ExprStmt expr => eval n expr ctx ;; ret tt
      | Print expr =>
          do value <- eval n expr ctx;
          fun st => py_print (Print_line st value) st
      | Return expr =>
          do value <- match expr with
                      | Some e => eval n e ctx
                      | None => ret VNil
                      end;
          raise (LoxReturn [value])
      | VarDef name value =>
          do val <- match value with
                    | Some e => eval n e ctx
                    | None => ret VNil
                    end;
          Ctx_var_def ctx name val
      | If cond then_branch else_branch =>
          do c <- eval n cond ctx;
          if py_bool c then exec n then_branch ctx
          else match else_branch with
               | Some s' => exec n s' ctx
               | None => ret tt
               end
      | While expr stmt =>
          do c <- eval n expr ctx;
          if py_bool c then exec n stmt ctx ;; exec n (While expr stmt) ctx
          else ret tt
      | Block stmts =>
          (* [finally: ctx = ctx.pop()[1]] only rebinds the local name *)
          do ctx' <- Ctx_push ctx ∅;
          for_each (fun stmt => exec n stmt ctx') stmts
      | Function name params body =>
          do fn <- new_LoxFunction (mkLoxFunction name params body ctx);
          Ctx_var_def ctx name fn
      end
  end.

(** [Program.eval]. *)
Definition Program_eval (fuel : nat) (stmts : Program) (ctx : Ctx) : M unit :=
  for_each (fun stmt => exec fuel stmt ctx) stmts.

(** ** The call protocol ([runtime.LoxFunction])

    The class body binds the name [call] twice.  Python keeps the later
    binding, so the method an instance has is the second one,
    [def call(self, *args): return self.call(args)]; the first, which
    holds the protocol, is unreachable.  Both are embedded. *)

(** The first [def call(self, args)].  [ex.value] reads an attribute that
    [LoxReturn] never sets (its [init] is not Python's [__init__]), so the
    handler raises [AttributeError].  The [finally] clause rebinds the
    local name [local_ctx] and touches nothing else. *)
Definition LoxFunction_call_shadowed
    (fuel : nat) (self : LoxFunction) (args : list Value) : M Value :=
  if negb (Nat.eqb (length args) (length (fn_params self))) then
    raise (RuntimeError
             ("Expected " ++ str_int (Z.of_nat (length (fn_params self)))
              ++ " arguments but got " ++ str_int (Z.of_nat (length args))
              ++ "."))
  else
    do local_ctx <- Ctx_push (fn_ctx self) ∅;
    for_each (fun pa => Ctx_var_def local_ctx (fst pa) (snd pa))
             (zip (fn_params self) args) ;;
    fun st =>
      match exec fuel (fn_body self) local_ctx st with
      | (Ok _, st') => (Ok VNil, st')
      | (Raise (LoxReturn _), st') =>
          (Raise (AttributeError "'LoxReturn' object has no attribute 'value'"),
           st')
      | (Raise e, st') => (Raise e, st')
      | (HostObject, st') => (HostObject, st')
      | (OutOfFuel, st') => (OutOfFuel, st')
      end.

(** What [*args] collects: Lox values on the first entry, and the previous
    argument tuple as a single item on every re-entry. *)
Inductive pyarg : Type :=
  | Item (v : Value)
  | Tuple (items : list pyarg).

(** The second [def call(self, *args)], the one in effect: it passes its
    argument tuple to [self.call], that is to itself. *)
Fixpoint LoxFunction_call
    (fuel : nat) (self : LoxFunction) (args : list pyarg) : M Value :=
  match fuel with
  | O => out_of_fuel
  | S n => LoxFunction_call n self [Tuple args]
  end.

End Interpreter.

(** ** The desugaring of [for] ([transformer.py]) *)

Definition for_init (args : list Stmt) : Stmt :=
  match args with
  | [] => ExprStmt (Literal VNil)
  | a :: _ => a
  end.

Definition for_cond (args : list Expr) : Expr :=
  match args with
  | [] => Literal (VBool true)
  | a :: _ => a
  end.

Definition for_incr (args : list Expr) : Expr :=
  match args with
  | [] => Literal VNil
  | a :: _ => a
  end.

(** [isinstance(node, Literal) and node.value is None] *)
Definition is_nil_literal (e : Expr) : bool :=
  match e with
  | Literal VNil => true
  | _ => false
  end.

Definition stmt_is_nil_literal (s : Stmt) : bool :=
  match s with
  | ExprStmt e => is_nil_literal e
  | _ => false
  end.

Definition for_cmd (init : Stmt) (cond incr : Expr) (body : Stmt) : Stmt :=
  let stmts := if stmt_is_nil_literal init then [] else [init] in
  let while_stmts :=
    match body with
    | Block body_stmts => body_stmts
    | _ => [body]
    end in
  let while_stmts :=
    if is_nil_literal incr then while_stmts
    else (while_stmts ++ [ExprStmt incr])%list in
  let while_block := Block while_stmts in
  let while_stmt := While cond while_block in
  Block (stmts ++ [while_stmt])%list.

(** A host whose values carry no attributes at all, for running programs
    that use none. *)
Definition plain_host : Host :=
  mkHost (fun _ attr => raise (AttributeError attr))
         (fun _ attr _ => raise (AttributeError attr))
         None
         (fun _ _ _ => false)
         (fun _ f => "LoxFunction(name='" ++ fn_name f ++ "')").

(** ** Sample programs and the vocabulary of the statements *)

(** [m'] does whatever [m] does, wherever [m] does not run out of fuel. *)
Definition extends {A} (m m' : M A) : Prop :=
  forall st r st', m st = (r, st') -> r <> OutOfFuel -> m' st = (r, st').

(** A function whose body is [return 1;], and one with two parameters. *)
Definition returning_function : LoxFunction :=
  mkLoxFunction "f" [] (Block [Return (Some (Literal (VNum 1)))]) root_ctx.

Definition binary_function : LoxFunction :=
  mkLoxFunction "g" ["a"; "b"] (Block [Print (Var "a")]) root_ctx.

(** A program that declares [f] and calls it: [fun f() { print "body"; } f();] *)
Definition call_program : Program :=
  [Function "f" [] (Block [Print (Literal (VStr "body"))]);
   ExprStmt (Call (Var "f") [])].

(** The exception [Call.eval] ends with when the callee is not callable. *)
Definition not_callable_error (host : Host) : exn :=
  match Node_name host with
  | Some name => TypeError (name ++ " não é uma função!")
  | None => AttributeError "'Call' object has no attribute 'name'"
  end.

Inductive Kind : Type := KNil | KBool | KNum | KStr | KFun.

Definition kind (v : Value) : Kind :=
  match v with
  | VNil => KNil
  | VBool _ => KBool
  | VNum _ => KNum
  | VStr _ => KStr
  | VFun _ => KFun
  end.

(** A store in which [x] is bound to 0, and an expression that would
    change it: [x = 1]. *)
Definition store_x : Store := mkStore [<["x" := VNum 0]> ∅] [] [].

Definition assign_x : Expr := Assign "x" (Literal (VNum 1)).

Definition is_decimal_digit (c : ascii) : bool :=
  (48 <=? nat_of_ascii c)%nat && (nat_of_ascii c <=? 57)%nat.

Fixpoint all_digits (s : string) : bool :=
  match s with
  | EmptyString => true
  | String c rest => is_decimal_digit c && all_digits rest
  end.

(** Digits after an optional minus sign: no decimal point, no fraction,
    no exponent. *)
Definition integer_numeral (s : string) : bool :=
  match s with
  | String "-" rest => all_digits rest
  | _ => all_digits s
  end.

(** The formatting rules of the print statement, value kind by value
    kind. *)
Definition lox_format (v : Value) (line : string) : Prop :=
  match v with
  | VBool true => line = "true"
  | VBool false => line = "false"
  | VNil => line = "nil"
  | VNum x =>
      if float_is_integer x
      then line = str_int (float_to_int x) /\ integer_numeral line = true
      else line = float_repr x
  | VStr s => line = s
  | VFun _ => True
  end.

(** A host on which function objects accept attribute writes, as instances
    of an ordinary Python class do, and nothing else does.  It keeps no
    record of the attributes written. *)
Definition object_host : Host :=
  mkHost (fun _ attr => raise (AttributeError attr))
         (fun o attr _ =>
            match o with
            | VFun _ => ret tt
            | _ => raise (AttributeError attr)
            end)
         None
         (fun _ _ _ => false)
         (fun _ f => "LoxFunction(name='" ++ fn_name f ++ "')").

(** A store in which [x] and [f] are bound, [f] to a function object. *)
Definition store_f : Store :=
  mkStore [<["f" := VFun 0]> (<["x" := VNum 0]> ∅)]
          [mkLoxFunction "f" [] (Block []) root_ctx] [].

(** The clauses of a [for] as the grammar hands them over: a list that is
    empty when the clause is absent. *)
Definition clause {A} (o : option A) : list A :=
  match o with
  | Some a => [a]
  | None => []
  end.

Definition body_statements (body : Stmt) : list Stmt :=
  match body with
  | Block body_stmts => body_stmts
  | _ => [body]
  end.

(** The desugaring in the words of the specification: a block containing
    the optional initializer followed by a while loop whose body is the
    original body with the increment, if any, appended. *)
Definition for_desugared
    (init : option Stmt) (cond : Expr) (incr : option Expr) (body : Stmt) : Stmt :=
  Block (clause init
         ++ [While cond
               (Block (body_statements body
                       ++ clause (option_map ExprStmt incr)))])%list.

(** [for (var i = 0; i < 3; i = i + 1) print i;] *)
Definition for_example : Stmt :=
  for_cmd (for_init [VarDef "i" (Some (Literal (VNum 0)))])
          (for_cond [BinOp (Var "i") (Literal (VNum 3)) op_lt])
          (for_incr [Assign "i" (BinOp (Var "i") (Literal (VNum 1)) op_add)])
          (Print (Var "i")).

(** ** Vocabulary of the further properties, and the rest of [runtime.py]
       and [transformer.py] *)








(** [runtime.show]: [str(value)]. *)
Definition show (host : Host) (st : Store) (value : Value) : string :=
  py_str host st value.

(** The double quote character. *)
Definition dquote : ascii := ascii_of_nat 34.

(** [runtime.show_repr]: a text between double quotes, anything else as
    [show] gives it. *)
Definition show_repr (host : Host) (st : Store) (value : Value) : string :=
  match value with
  | VStr s => String dquote (s ++ String dquote EmptyString)
  | _ => show host st value
  end.

(** [s[1:-1]]: the string without its first and its last character. *)
Fixpoint drop_last (s : string) : string :=
  match s with
  | EmptyString => EmptyString
  | String c EmptyString => EmptyString
  | String c rest => String c (drop_last rest)
  end.

Definition slice_inner (s : string) : string :=
  match s with
  | EmptyString => EmptyString
  | String _ rest => drop_last rest
  end.

(** [LoxTransformer.STRING]: the token without its quotes. *)
Definition STRING (token : string) : Expr := Literal (VStr (slice_inner token)).

Fixpoint has_char (c : ascii) (s : string) : bool :=
  match s with
  | EmptyString => false
  | String c' rest => Ascii.eqb c c' || has_char c rest
  end.

(** [attr.name]: the nodes that have a field [name]. *)
Definition node_name (e : Expr) : option string :=
  match e with
  | Var name => Some name
  | Assign name _ => Some name
  | _ => None
  end.

(** [LoxTransformer.getatributo]: [value.a.b...], one [Getattr] per name,
    innermost first. *)
Fixpoint getatributo (value : Expr) (attrs : list Expr) : outcome Expr :=
  match attrs with
  | [] => Ok value
  | attr :: attrs' =>
      match node_name attr with
      | Some name => getatributo (Getattr value name) attrs'
      | None => Raise (AttributeError "name")
      end
  end.

(** [LoxTransformer.setattr]: [Setattr(obj.value, obj.attr, value)], for a
    node [obj] that has the fields [value] and [attr]. *)
Definition setattr (obj value : Expr) : outcome Expr :=
  match obj with
  | Getattr target attr => Ok (Setattr target attr value)
  | Setattr _ attr value' => Ok (Setattr value' attr value)
  | Literal _ | UnaryOp _ _ | Assign _ _ => Raise (AttributeError "attr")
  | BinOp _ _ _ | Var _ | And _ _ | Or _ _ | Call _ _ =>
      Raise (AttributeError "value")
  end.

(** The scope a call fills: the parameters bound to the arguments, in
    order. *)
Definition bound_scope (d : gmap string Value) (l : list (string * Value))
  : gmap string Value :=
  foldl (fun d pa => <[fst pa := snd pa]> d) d l.

(** The four ordering operators. *)
Definition is_ordering (op : binop) : bool :=
  match op with
  | op_gt | op_lt | op_ge | op_le => true
  | _ => false
  end.

(** * Properties *)

(** ** Bookkeeping lemmas on the monad *)

Lemma bind_Ok {A B} (m : M A) (k : A -> M B) st a st' :
  m st = (Ok a, st') -> bind m k st = k a st'.
Proof. intros H. unfold bind. rewrite H. reflexivity. Qed.

(** Leaving a scope gives the context it was pushed on. *)
Lemma Ctx_pop_push ctx initial st :
  match Ctx_push ctx initial st with
  | (Ok ctx', _) => Ctx_pop ctx' = ctx
  | _ => False
  end.
Proof. reflexivity. Qed.

(** ** Fuel is only a bound *)

Lemma extends_refl {A} (m : M A) : extends m m.
Proof. intros st r st' H _. exact H. Qed.

Lemma extends_bind {A B} (m m' : M A) (k k' : A -> M B) :
  extends m m' -> (forall a, extends (k a) (k' a)) ->
  extends (bind m k) (bind m' k').
Proof.
  intros Hm Hk st r st' H Hr. unfold bind in *.
  destruct (m st) as [[a | e | | ] st1] eqn:E.
  - rewrite (Hm _ _ _ E ltac:(discriminate)). apply Hk; assumption.
  - rewrite (Hm _ _ _ E ltac:(discriminate)). exact H.
  - rewrite (Hm _ _ _ E ltac:(discriminate)). exact H.
  - inversion H; subst. contradiction.
Qed.

Lemma extends_for_each {A} (f f' : A -> M unit) xs :
  (forall x, extends (f x) (f' x)) -> extends (for_each f xs) (for_each f' xs).
Proof.
  intros H. induction xs as [| x xs IH]; simpl.
  - apply extends_refl.
  - apply extends_bind; [apply H | intros _; exact IH].
Qed.

Lemma extends_list_comp {A B} (f f' : A -> M B) xs :
  (forall x, extends (f x) (f' x)) -> extends (list_comp f xs) (list_comp f' xs).
Proof.
  intros H. induction xs as [| x xs IH]; simpl.
  - apply extends_refl.
  - apply extends_bind; [apply H | intros y].
    apply extends_bind; [exact IH | intros ys; apply extends_refl].
Qed.

Lemma eval_fuel_mono host n e ctx :
  extends (eval host n e ctx) (eval host (S n) e ctx).
Proof.
  revert e ctx. induction n as [| n IH]; intros e ctx.
  - intros st r st' H Hr. simpl in H. inversion H; subst. contradiction.
  - destruct e; cbn [eval];
      repeat first
        [ apply extends_refl
        | apply IH
        | apply extends_bind; [| intros ?]
        | apply extends_list_comp; intros ?
        | match goal with
          | |- extends (if ?c then _ else _) (if ?c then _ else _) =>
              destruct c
          end ].
Qed.

Lemma exec_fuel_mono host n s ctx :
  extends (exec host n s ctx) (exec host (S n) s ctx).
Proof.
  revert s ctx. induction n as [| n IH]; intros s ctx.
  - intros st r st' H Hr. simpl in H. inversion H; subst. contradiction.
  - destruct s; cbn [exec];
      repeat first
        [ apply extends_refl
        | apply IH
        | apply eval_fuel_mono
        | apply extends_bind; [| intros ?]
        | apply extends_for_each; intros ?
        | match goal with
          | |- extends (if ?c then _ else _) (if ?c then _ else _) =>
              destruct c
          | |- extends (match ?o with Some _ => _ | None => _ end)
                       (match ?o with Some _ => _ | None => _ end) =>
              destruct o
          end ].
Qed.

Lemma extends_trans {A} (m1 m2 m3 : M A) :
  extends m1 m2 -> extends m2 m3 -> extends m1 m3.
Proof.
  intros H12 H23 st r st' H Hr. apply H23; [apply H12 |]; assumption.
Qed.

(** More fuel never changes a finished evaluation. *)
Lemma eval_more_fuel host n k e ctx :
  extends (eval host n e ctx) (eval host (k + n) e ctx).
Proof.
  induction k as [| k IH]; simpl.
  - apply extends_refl.
  - eapply extends_trans; [exact IH | apply eval_fuel_mono].
Qed.

Lemma exec_more_fuel host n k s ctx :
  extends (exec host n s ctx) (exec host (k + n) s ctx).
Proof.
  induction k as [| k IH]; simpl.
  - apply extends_refl.
  - eapply extends_trans; [exact IH | apply exec_fuel_mono].
Qed.

(** ** The call protocol *)

(** The method an instance has re-enters itself whatever the function and
    the arguments are: no amount of fuel lets it finish. *)
Lemma LoxFunction_call_diverges fuel self args st :
  LoxFunction_call fuel self args st = (OutOfFuel, st).
Proof.
  revert args. induction fuel as [| n IH]; intros args; simpl.
  - reflexivity.
  - apply IH.
Qed.

(** X20.  What the unreachable first definition does on a wrong argument
    count: it raises the arity condition before any scope is pushed. *)
Lemma LoxFunction_call_shadowed_arity host fuel self args st :
  length args <> length (fn_params self) ->
  LoxFunction_call_shadowed host fuel self args st =
    (Raise (RuntimeError
              ("Expected " ++ str_int (Z.of_nat (length (fn_params self)))
               ++ " arguments but got " ++ str_int (Z.of_nat (length args))
               ++ ".")), st).
Proof.
  intros H. unfold LoxFunction_call_shadowed.
  destruct (Nat.eqb_spec (length args) (length (fn_params self))) as [E | E].
  - contradiction.
  - reflexivity.
Qed.

Lemma for_each_var_def_Ok ctx (l : list (string * Value)) st :
  fst (for_each (fun pa => Ctx_var_def ctx (fst pa) (snd pa)) l st) = Ok tt.
Proof.
  revert st. induction l as [| pa l IH]; intros st; simpl.
  - reflexivity.
  - unfold bind. destruct ctx as [| s parent]; simpl; apply IH.
Qed.

(** The first definition of [call] on a right argument count: the
    parameters are bound in a fresh scope under the captured context and
    the body runs there.  A body that completes gives nil; the return
    signal ends in [AttributeError]; any other exception passes through. *)
Lemma LoxFunction_call_shadowed_runs host fuel self args st :
  length args = length (fn_params self) ->
  LoxFunction_call_shadowed host fuel self args st =
    let local_ctx := length (scopes st) :: fn_ctx self in
    let st1 :=
      snd (for_each (fun pa => Ctx_var_def local_ctx (fst pa) (snd pa))
             (zip (fn_params self) args)
             (mkStore (scopes st ++ [∅]) (objects st) (stdout st))) in
    match exec host fuel (fn_body self) local_ctx st1 with
    | (Ok _, st') => (Ok VNil, st')
    | (Raise (LoxReturn _), st') =>
        (Raise (AttributeError "'LoxReturn' object has no attribute 'value'"),
         st')
    | (Raise e, st') => (Raise e, st')
    | (HostObject, st') => (HostObject, st')
    | (OutOfFuel, st') => (OutOfFuel, st')
    end.
Proof.
  intros H. unfold LoxFunction_call_shadowed.
  rewrite H, Nat.eqb_refl. simpl. unfold bind at 1. simpl.
  unfold bind.
  pose proof (for_each_var_def_Ok (length (scopes st) :: fn_ctx self)
                (zip (fn_params self) args)
                (mkStore (scopes st ++ [∅]) (objects st) (stdout st))) as E.
  destruct (for_each _ _ _) as [r st1]. simpl in E. subst r. reflexivity.
Qed.

(** C1 (the code departs from the claim).  A call never yields the value
    carried by the return signal.  The method [call] in effect re-enters
    itself without end for every function and argument list; and in the
    first definition, which it replaced, the handler of the return signal
    raises [AttributeError] on [ex.value], as the run of a function whose
    body is [return 1;] shows. *)
Theorem LoxFunction_call_loses_return_value :
  forall host fuel self args st,
    (forall v, fst (LoxFunction_call fuel self args st) <> Ok v)
    /\ LoxFunction_call_shadowed host (3 + fuel) returning_function [] empty_store
       = (Raise (AttributeError "'LoxReturn' object has no attribute 'value'"),
          mkStore [∅; ∅; ∅] [] []).
Proof.
  intros host fuel self args st. split.
  - intros v. rewrite LoxFunction_call_diverges. discriminate.
  - reflexivity.
Qed.

(** C3 (the code departs from the claim).  Whatever the argument count,
    the method [call] in effect never raises the arity condition: it does
    not reach the check of the first definition.  With one argument for two
    parameters it runs out of every fuel. *)
Theorem LoxFunction_call_skips_arity_check :
  forall fuel self args st,
    (forall msg,
        fst (LoxFunction_call fuel self args st) <> Raise (RuntimeError msg))
    /\ LoxFunction_call fuel binary_function [Item (VNum 1)] st
       = (OutOfFuel, st).
Proof.
  intros fuel self args st. split.
  - intros msg. rewrite LoxFunction_call_diverges. discriminate.
  - apply LoxFunction_call_diverges.
Qed.

(** ** Call expressions *)

Lemma callable_false (obj : Value) : callable obj = false.
Proof. destruct obj; reflexivity. Qed.

(** The order of [Call.eval]: the callee, then the arguments from left to
    right, then the failure; an exception on the way ends the evaluation
    there. *)
Lemma Call_eval_order host n obj params ctx st :
  eval host (S n) (Call obj params) ctx st
  = bind (eval host n obj ctx)
      (fun _ =>
         bind (list_comp (fun param => eval host n param ctx) params)
              (fun _ => raise (not_callable_error host))) st.
Proof.
  simpl. unfold bind.
  destruct (eval host n obj ctx st) as [[o | e | | ] st1]; try reflexivity.
  destruct (list_comp _ params st1) as [[ps | e | | ] st2]; try reflexivity.
  rewrite callable_false. unfold not_callable_error.
  destruct (Node_name host); reflexivity.
Qed.

(** C4 (the code departs from the claim).  A call expression never yields a
    value: [callable] rejects every Lox value, function objects included,
    since [LoxFunction] has no [__call__].  Calling a declared function
    therefore runs none of its body and ends with the exception meant for
    a callee that is not a function, which is [AttributeError] rather than
    the not-callable [TypeError] unless [Node] supplies the attribute
    [name] the message reads. *)
Theorem Call_eval_never_invokes :
  forall host fuel,
    (forall obj params ctx st v,
        fst (eval host fuel (Call obj params) ctx st) <> Ok v)
    /\ Program_eval host (4 + fuel) call_program root_ctx empty_store
       = (Raise (not_callable_error host),
          mkStore [<["f" := VFun 0]> ∅]
                  [mkLoxFunction "f" []
                     (Block [Print (Literal (VStr "body"))]) root_ctx]
                  []).
Proof.
  intros host fuel. split.
  - intros obj params ctx st v.
    destruct fuel as [| n]; simpl; [discriminate |].
    unfold bind.
    destruct (eval host n obj ctx st) as [[o | e | | ] st1]; simpl;
      try discriminate.
    destruct (list_comp _ params st1) as [[ps | e | | ] st2]; simpl;
      try discriminate.
    rewrite callable_false.
    destruct (Node_name host); discriminate.
  - unfold not_callable_error.
    destruct host as [ga sa [name |] eqf rp]; reflexivity.
Qed.

(** ** Conditions of [if] and [while] *)

(** Where Python's truth test and the truth of Lox part ways. *)
Lemma py_bool_is_not_truthy :
  py_bool (VNum 0) = false /\ truthy (VNum 0) = true
  /\ py_bool (VStr "") = false /\ truthy (VStr "") = true
  /\ is_truthy (VNum 0) = true /\ is_truthy (VStr "") = true.
Proof. repeat split. Qed.

(** The two agree on booleans, nil and functions. *)
Lemma py_bool_truthy_agree (v : Value) :
  match v with
  | VNum _ | VStr _ => True
  | _ => py_bool v = truthy v /\ truthy v = is_truthy v
  end.
Proof. destruct v as [| [|] | x | s | id]; simpl; auto. Qed.

(** C2 (the code departs from the claim).  [If.eval] and [While.eval] test
    the condition by Python's truth, not by [is_truthy]: on the number 0
    the else-branch runs, and a loop on the empty text never enters its
    body. *)
Theorem If_While_test_python_truth :
  forall host fuel ctx st,
    exec host (3 + fuel)
         (If (Literal (VNum 0)) (Print (Literal (VStr "then")))
             (Some (Print (Literal (VStr "else"))))) ctx st
    = (Ok tt, mkStore (scopes st) (objects st) (stdout st ++ ["else"]))
    /\ exec host (2 + fuel)
            (While (Literal (VStr "")) (Print (Literal (VStr "body")))) ctx st
       = (Ok tt, st).
Proof. intros host fuel ctx st. split; reflexivity. Qed.

(** ** Unary operators *)

(** C6 (the code departs from the claim).  [!] is [operator.not_], which
    negates Python's truth: [!0] and [!""] yield true.  Unary minus on a
    number is the float negation. *)
Theorem UnaryOp_not_negates_python_truth :
  forall host fuel ctx st,
    eval host (2 + fuel) (UnaryOp op_not_ (Literal (VNum 0))) ctx st
    = (Ok (VBool true), st)
    /\ eval host (2 + fuel) (UnaryOp op_not_ (Literal (VStr ""))) ctx st
       = (Ok (VBool true), st)
    /\ forall x,
         eval host (2 + fuel) (UnaryOp op_neg (Literal (VNum x))) ctx st
         = (Ok (VNum (- x)%float), st).
Proof. intros host fuel ctx st. repeat split. Qed.

(** What decides the branch of an [if] and the next round of a [while],
    for any condition that evaluates. *)
Lemma If_eval_condition host n cond then_branch else_branch ctx st v st1 :
  eval host n cond ctx st = (Ok v, st1) ->
  exec host (S n) (If cond then_branch else_branch) ctx st =
    if py_bool v then exec host n then_branch ctx st1
    else match else_branch with
         | Some s => exec host n s ctx st1
         | None => (Ok tt, st1)
         end.
Proof.
  intros H. simpl. rewrite (bind_Ok _ _ _ _ _ H).
  destruct (py_bool v); [reflexivity |].
  destruct else_branch; reflexivity.
Qed.

Lemma While_eval_condition host n expr stmt ctx st v st1 :
  eval host n expr ctx st = (Ok v, st1) ->
  exec host (S n) (While expr stmt) ctx st =
    if py_bool v
    then bind (exec host n stmt ctx)
              (fun _ => exec host n (While expr stmt) ctx) st1
    else (Ok tt, st1).
Proof.
  intros H. simpl. rewrite (bind_Ok _ _ _ _ _ H).
  destruct (py_bool v); reflexivity.
Qed.

Lemma UnaryOp_not_eval host n value ctx st v st1 :
  eval host n value ctx st = (Ok v, st1) ->
  eval host (S n) (UnaryOp op_not_ value) ctx st
  = (Ok (VBool (negb (py_bool v))), st1).
Proof. intros H. simpl. rewrite (bind_Ok _ _ _ _ _ H). reflexivity. Qed.

(** ** Equality *)

Lemma BinOp_eval host n lhs rhs op ctx st a st1 b st2 :
  eval host n lhs ctx st = (Ok a, st1) ->
  eval host n rhs ctx st1 = (Ok b, st2) ->
  eval host (S n) (BinOp lhs rhs op) ctx st = apply_binop host op a b st2.
Proof.
  intros Ha Hb. simpl.
  rewrite (bind_Ok _ _ _ _ _ Ha). rewrite (bind_Ok _ _ _ _ _ Hb). reflexivity.
Qed.

Lemma py_eq_cross_kind host st a b :
  kind a <> kind b ->
  as_number a = None \/ as_number b = None ->
  py_eq host st a b = false.
Proof.
  intros Hk Hn.
  destruct a as [| c | x | s | i], b as [| d | y | t | j];
    simpl in *; try reflexivity; try contradiction;
    destruct Hn; discriminate.
Qed.

(** C5, as the claim states it, fails on a boolean against a number:
    [true == 1] yields true. *)
Lemma eq_true_one_counterexample :
  eval plain_host 2
       (BinOp (Literal (VBool true)) (Literal (VNum 1)) op_eq)
       root_ctx empty_store
  = (Ok (VBool true), empty_store).
Proof. reflexivity. Qed.

(** C5 (amended).  [a == b] and [a != b] succeed for every pair of values
    and are each other's negation.  Values of different kinds are unequal,
    except a boolean against a number: these compare as numbers, [true]
    counting as 1 and [false] as 0. *)
Theorem BinOp_eq_ne_total :
  forall host n lhs rhs ctx st a st1 b st2,
    eval host n lhs ctx st = (Ok a, st1) ->
    eval host n rhs ctx st1 = (Ok b, st2) ->
    eval host (S n) (BinOp lhs rhs op_eq) ctx st
      = (Ok (VBool (py_eq host st2 a b)), st2)
    /\ eval host (S n) (BinOp lhs rhs op_ne) ctx st
      = (Ok (VBool (negb (py_eq host st2 a b))), st2)
    /\ (kind a <> kind b ->
        match a, b with
        | VBool c, VNum x =>
            py_eq host st2 a b = PrimFloat.eqb (float_of_bool c) x
        | VNum x, VBool c =>
            py_eq host st2 a b = PrimFloat.eqb x (float_of_bool c)
        | _, _ => py_eq host st2 a b = false
        end).
Proof.
  intros host n lhs rhs ctx st a st1 b st2 Ha Hb.
  rewrite !(BinOp_eval _ _ _ _ _ _ _ _ _ _ _ Ha Hb).
  repeat split.
  intros Hk.
  destruct a as [| c | x | s | i], b as [| d | y | t | j];
    simpl in *; try reflexivity; contradiction.
Qed.

(** Text against number, both ways round: ["1" == 1] is false and
    ["1" != 1] is true. *)
Lemma BinOp_eq_ne_total_witness :
  eval plain_host 1 (Literal (VStr "1")) root_ctx empty_store
    = (Ok (VStr "1"), empty_store)
  /\ eval plain_host 1 (Literal (VNum 1)) root_ctx empty_store
    = (Ok (VNum 1), empty_store)
  /\ eval plain_host 2 (BinOp (Literal (VStr "1")) (Literal (VNum 1)) op_eq)
          root_ctx empty_store
    = (Ok (VBool false), empty_store)
  /\ eval plain_host 2 (BinOp (Literal (VStr "1")) (Literal (VNum 1)) op_ne)
          root_ctx empty_store
    = (Ok (VBool true), empty_store).
Proof.
  pose proof (BinOp_eq_ne_total plain_host 1
                (Literal (VStr "1")) (Literal (VNum 1)) root_ctx
                empty_store (VStr "1") empty_store (VNum 1) empty_store
                eq_refl eq_refl) as [Heq [Hne _]].
  exact (conj eq_refl (conj eq_refl (conj Heq Hne))).
Defined.

(** ** Logical operators *)

Lemma is_truthy_false (v : Value) :
  is_truthy v = false <-> v = VBool false \/ v = VNil.
Proof.
  destruct v as [| [|] | x | s | id]; simpl; split; intros H;
    try discriminate; try reflexivity; auto;
    destruct H as [H | H]; discriminate.
Qed.

(** C7.  [L and R] evaluates [L]; when its value is falsy, that is [false]
    or [nil], the result is this value and the store is the one [L] left,
    whatever [R] is: [R] is not evaluated.  Otherwise the result is that of
    [R], evaluated after [L].  [L or R] does the same with the roles of
    truthy and falsy exchanged. *)
Theorem And_Or_short_circuit :
  forall host n lhs rhs ctx st v st1,
    eval host n lhs ctx st = (Ok v, st1) ->
    (is_truthy v = false <-> v = VBool false \/ v = VNil)
    /\ eval host (S n) (And lhs rhs) ctx st
       = (if is_truthy v then eval host n rhs ctx st1 else (Ok v, st1))
    /\ eval host (S n) (Or lhs rhs) ctx st
       = (if is_truthy v then (Ok v, st1) else eval host n rhs ctx st1).
Proof.
  intros host n lhs rhs ctx st v st1 H.
  split; [apply is_truthy_false |].
  simpl. rewrite !(bind_Ok _ _ _ _ _ H).
  destruct (is_truthy v); split; reflexivity.
Qed.

(** [false and (x = 1)] yields [false] and leaves [x] alone;
    [true or (x = 1)] yields [true] and leaves [x] alone. *)
Lemma And_Or_short_circuit_witness :
  eval plain_host 1 (Literal (VBool false)) root_ctx store_x
    = (Ok (VBool false), store_x)
  /\ eval plain_host 2 (And (Literal (VBool false)) assign_x) root_ctx store_x
    = (Ok (VBool false), store_x)
  /\ eval plain_host 2 (Or (Literal (VBool true)) assign_x) root_ctx store_x
    = (Ok (VBool true), store_x).
Proof.
  split; [reflexivity |]. split.
  - exact (proj1 (proj2 (And_Or_short_circuit plain_host 1
             (Literal (VBool false)) assign_x root_ctx store_x
             (VBool false) store_x eq_refl))).
  - exact (proj2 (proj2 (And_Or_short_circuit plain_host 1
             (Literal (VBool true)) assign_x root_ctx store_x
             (VBool true) store_x eq_refl))).
Defined.

(** ** Printing *)

Lemma string_of_uint_digits (d : Decimal.uint) :
  all_digits (NilEmpty.string_of_uint d) = true.
Proof. induction d; simpl; auto. Qed.

Lemma str_int_numeral (z : Z) : integer_numeral (str_int z) = true.
Proof.
  unfold str_int, NilZero.string_of_int.
  destruct (Z.to_int z) as [d | d].
  - unfold NilZero.string_of_uint.
    destruct d; try reflexivity;
      match goal with
      | |- integer_numeral (NilEmpty.string_of_uint ?u) = true =>
          change (all_digits (NilEmpty.string_of_uint u) = true);
          apply string_of_uint_digits
      end.
  - simpl. unfold NilZero.string_of_uint.
    destruct d; try reflexivity; apply string_of_uint_digits.
Qed.

Lemma Print_line_format host st v : lox_format v (Print_line host st v).
Proof.
  destruct v as [| [|] | x | s | id]; simpl; try reflexivity; try exact I.
  unfold Print_line; simpl.
  destruct (float_is_integer x).
  - split; [reflexivity | apply str_int_numeral].
  - reflexivity.
Qed.

(** C8.  A print statement whose expression evaluates appends exactly one
    line to the output: [true] or [false] for a boolean, [nil] for nil, the
    integer numeral of an integral number (4.0 gives [4]), the decimal form
    of any other number (4.5 gives [4.5]), and a text as it is. *)
Theorem Print_eval_format :
  forall host n expr ctx st v st1,
    eval host n expr ctx st = (Ok v, st1) ->
    exec host (S n) (Print expr) ctx st
      = (Ok tt, mkStore (scopes st1) (objects st1)
                        (stdout st1 ++ [Print_line host st1 v]))
    /\ lox_format v (Print_line host st1 v)
    /\ Print_line host st1 (VNum 4) = "4"
    /\ Print_line host st1 (VNum 4.5) = "4.5".
Proof.
  intros host n expr ctx st v st1 H.
  split; [| split; [apply Print_line_format | split; reflexivity]].
  simpl. rewrite (bind_Ok _ _ _ _ _ H). reflexivity.
Qed.

(** [print 4.5;] on an empty output writes the single line [4.5]. *)
Lemma Print_eval_format_witness :
  eval plain_host 1 (Literal (VNum 4.5)) root_ctx empty_store
    = (Ok (VNum 4.5), empty_store)
  /\ exec plain_host 2 (Print (Literal (VNum 4.5))) root_ctx empty_store
    = (Ok tt, mkStore [∅] [] ["4.5"]).
Proof.
  split; [reflexivity |].
  exact (proj1 (Print_eval_format plain_host 1 (Literal (VNum 4.5)) root_ctx
                  empty_store (VNum 4.5) empty_store eq_refl)).
Defined.

(** ** Attribute writes *)

(** When the target of an attribute write does not evaluate, the write ends
    the same way in the same store: the value expression is not
    evaluated. *)
Lemma Setattr_eval_target_fails host n obj attr value ctx st :
  (forall o, fst (eval host n obj ctx st) <> Ok o) ->
  eval host (S n) (Setattr obj attr value) ctx st = eval host n obj ctx st.
Proof.
  intros H. simpl. unfold bind.
  destruct (eval host n obj ctx st) as [[o | e | | ] st1]; simpl in *;
    try reflexivity.
  exfalso. exact (H o eq_refl).
Qed.

(** When the value expression does not evaluate, nothing is written. *)
Lemma Setattr_eval_value_fails host n obj attr value ctx st o st1 :
  eval host n obj ctx st = (Ok o, st1) ->
  (forall v, fst (eval host n value ctx st1) <> Ok v) ->
  eval host (S n) (Setattr obj attr value) ctx st = eval host n value ctx st1.
Proof.
  intros Ho H. simpl. rewrite (bind_Ok _ _ _ _ _ Ho). unfold bind.
  destruct (eval host n value ctx st1) as [[v | e | | ] st2]; simpl in *;
    try reflexivity.
  exfalso. exact (H v eq_refl).
Qed.

(** C10.  In [obj.attr = e] the target is evaluated first, the value
    expression next, in the store the target left; once the host has
    written the attribute, the expression yields the assigned value. *)
Theorem Setattr_eval_order_and_value :
  forall host n obj attr value ctx st o st1 v st2 st3,
    eval host n obj ctx st = (Ok o, st1) ->
    eval host n value ctx st1 = (Ok v, st2) ->
    py_setattr host o attr v st2 = (Ok tt, st3) ->
    eval host (S n) (Setattr obj attr value) ctx st = (Ok v, st3).
Proof.
  intros host n obj attr value ctx st o st1 v st2 st3 Ho Hv Hs.
  simpl.
  rewrite (bind_Ok _ _ _ _ _ Ho). rewrite (bind_Ok _ _ _ _ _ Hv).
  rewrite (bind_Ok _ _ _ _ _ Hs). reflexivity.
Qed.

(** [f.count = (x = 1)]: the value expression runs after the target and
    its effect on [x] is kept; the whole expression yields 1. *)
Lemma Setattr_eval_order_and_value_witness :
  eval object_host 3 (Setattr (Var "f") "count" assign_x) root_ctx store_f
  = (Ok (VNum 1),
     mkStore [<["f" := VFun 0]> (<["x" := VNum 1]> ∅)]
             [mkLoxFunction "f" [] (Block []) root_ctx] []).
Proof.
  refine (eq_trans
    (Setattr_eval_order_and_value object_host 2 (Var "f") "count" assign_x
       root_ctx store_f (VFun 0) store_f (VNum 1)
       (mkStore [<["x" := VNum 1]> (<["f" := VFun 0]> (<["x" := VNum 0]> ∅))]
                [mkLoxFunction "f" [] (Block []) root_ctx] [])
       _ _ _ _) _).
  - vm_compute. reflexivity.
  - vm_compute. reflexivity.
  - reflexivity.
  - vm_compute. reflexivity.
Defined.

(** ** The [for] statement *)

Lemma stmt_is_nil_literal_false (s : Stmt) :
  s <> ExprStmt (Literal VNil) -> stmt_is_nil_literal s = false.
Proof.
  intros H. destruct s as [e | | | | | | |]; try reflexivity.
  destruct e as [| | v | | | | | | |]; try reflexivity.
  destruct v; try reflexivity. contradiction.
Qed.

Lemma is_nil_literal_false (e : Expr) :
  e <> Literal VNil -> is_nil_literal e = false.
Proof.
  intros H. destruct e as [| | v | | | | | | |]; try reflexivity.
  destruct v; try reflexivity. contradiction.
Qed.

Lemma for_cmd_desugared init cond incr body :
  init <> Some (ExprStmt (Literal VNil)) ->
  incr <> Some (Literal VNil) ->
  for_cmd (for_init (clause init)) cond (for_incr (clause incr)) body
  = for_desugared init cond incr body.
Proof.
  intros Hi Hc. unfold for_cmd, for_desugared.
  assert (E1 : (if stmt_is_nil_literal (for_init (clause init))
                then [] else [for_init (clause init)]) = clause init).
  { destruct init as [s |]; simpl; [| reflexivity].
    rewrite stmt_is_nil_literal_false; [reflexivity |].
    intros ->. apply Hi. reflexivity. }
  rewrite E1. do 3 f_equal.
  destruct incr as [e |]; simpl.
  - rewrite is_nil_literal_false; [destruct body; reflexivity |].
    intros ->. apply Hc. reflexivity.
  - destruct body; simpl; rewrite ?app_nil_r; reflexivity.
Qed.

(** The block of a desugared [for] pushes one scope; the initializer and
    the whole loop, hence the condition, the body and the increment of
    every iteration, run against that same scope. *)
Lemma for_desugared_single_scope host n init cond incr body ctx st :
  exec host (S (S n)) (for_desugared (Some init) cond incr body) ctx st
  = bind (exec host (S n) init (length (scopes st) :: ctx))
         (fun _ =>
            bind (exec host (S n)
                    (While cond
                       (Block (body_statements body
                               ++ clause (option_map ExprStmt incr))))
                    (length (scopes st) :: ctx))
                 (fun _ => ret tt))
         (mkStore (scopes st ++ [∅]) (objects st) (stdout st)).
Proof. reflexivity. Qed.

(** C9.  [for_cmd] builds the desugaring the specification describes; the
    initializer and the loop share the one scope of the enclosing block;
    and [for (var i = 0; i < 3; i = i + 1) print i;] prints 0, 1 and 2,
    after which [i] is bound nowhere in the root context. *)
Theorem for_cmd_desugars :
  forall host fuel init cond incr body,
    init <> Some (ExprStmt (Literal VNil)) ->
    incr <> Some (Literal VNil) ->
    for_cmd (for_init (clause init)) cond (for_incr (clause incr)) body
      = for_desugared init cond incr body
    /\ (forall s ctx st,
           init = Some s ->
           exec host (S (S fuel)) (for_desugared init cond incr body) ctx st
           = bind (exec host (S fuel) s (length (scopes st) :: ctx))
               (fun _ =>
                  bind (exec host (S fuel)
                          (While cond
                             (Block (body_statements body
                                     ++ clause (option_map ExprStmt incr))))
                          (length (scopes st) :: ctx))
                       (fun _ => ret tt))
               (mkStore (scopes st ++ [∅]) (objects st) (stdout st)))
    /\ fst (Program_eval host (9 + fuel) [for_example] root_ctx empty_store)
       = Ok tt
    /\ stdout (snd (Program_eval host (9 + fuel) [for_example] root_ctx
                      empty_store))
       = ["0"; "1"; "2"]
    /\ Ctx_lookup (snd (Program_eval host (9 + fuel) [for_example] root_ctx
                          empty_store)) root_ctx "i"
       = None.
Proof.
  intros host fuel init cond incr body Hi Hc.
  split; [apply for_cmd_desugared; assumption |].
  split; [intros s ctx st ->; apply for_desugared_single_scope |].
  repeat split; vm_compute; reflexivity.
Qed.

(** The example loop is the desugaring of its three clauses and its body,
    and it prints 0, 1, 2. *)
Lemma for_cmd_desugars_witness :
  for_example
  = for_desugared
      (Some (VarDef "i" (Some (Literal (VNum 0)))))
      (BinOp (Var "i") (Literal (VNum 3)) op_lt)
      (Some (Assign "i" (BinOp (Var "i") (Literal (VNum 1)) op_add)))
      (Print (Var "i"))
  /\ stdout (snd (Program_eval plain_host 9 [for_example] root_ctx empty_store))
     = ["0"; "1"; "2"].
Proof.
  pose proof (for_cmd_desugars plain_host 0%nat
                (Some (VarDef "i" (Some (Literal (VNum 0)))))
                (BinOp (Var "i") (Literal (VNum 3)) op_lt)
                (Some (Assign "i" (BinOp (Var "i") (Literal (VNum 1)) op_add)))
                (Print (Var "i"))
                ltac:(discriminate) ltac:(discriminate))
    as [H [_ [_ [Hout _]]]].
  exact (conj H Hout).
Defined.

(** * Further properties of the code *)

Lemma scopes_set_in_scope s name v st i :
  scopes (set_in_scope s name v st) !! i
  = if decide (s = i) then (fun d => <[name := v]> d) <$> scopes st !! i
    else scopes st !! i.
Proof.
  unfold set_in_scope; simpl. destruct (decide (s = i)) as [-> | Hne].
  - apply list_lookup_alter_eq.
  - apply list_lookup_alter_ne. exact Hne.
Qed.

Lemma Ctx_holder_lookup st ctx name :
  Ctx_holder st ctx name = None <-> Ctx_lookup st ctx name = None.
Proof.
  induction ctx as [| s parent IH]; simpl; [tauto |].
  destruct (scopes st !! s) as [d |]; [| exact IH].
  destruct (d !! name); [| exact IH].
  split; discriminate.
Qed.

Lemma Ctx_holder_binds st ctx name s :
  Ctx_holder st ctx name = Some s ->
  exists d w, scopes st !! s = Some d /\ d !! name = Some w.
Proof.
  induction ctx as [| h parent IH]; simpl; [discriminate |].
  destruct (scopes st !! h) as [d |] eqn:Eh; [| exact IH].
  destruct (d !! name) as [w |] eqn:Ew; [| exact IH].
  intros [= <-]. eauto.
Qed.

Lemma Ctx_lookup_set_same st ctx name v s :
  Ctx_holder st ctx name = Some s ->
  Ctx_lookup (set_in_scope s name v st) ctx name = Some v.
Proof.
  intros H. pose proof (Ctx_holder_binds _ _ _ _ H) as (ds & w & Hs & Hw).
  induction ctx as [| h parent IH]; cbn [Ctx_lookup Ctx_holder] in *;
    [discriminate |].
  rewrite scopes_set_in_scope.
  destruct (scopes st !! h) as [d |] eqn:Eh.
  - destruct (d !! name) as [w' |] eqn:Ew.
    + injection H as ->. rewrite decide_True by reflexivity. simpl.
      rewrite lookup_insert_eq. reflexivity.
    + destruct (decide (s = h)) as [-> | Hne].
      * congruence.
      * rewrite Ew. apply IH. exact H.
  - destruct (decide (s = h)) as [-> | Hne]; [congruence |].
    apply IH. exact H.
Qed.

Lemma Ctx_lookup_set_other st ctx name v s other :
  other <> name ->
  Ctx_lookup (set_in_scope s name v st) ctx other = Ctx_lookup st ctx other.
Proof.
  intros Hne. induction ctx as [| h parent IH]; cbn [Ctx_lookup];
    [reflexivity |].
  rewrite scopes_set_in_scope.
  destruct (decide (s = h)) as [-> | Hs].
  - destruct (scopes st !! h) as [d |]; simpl; [| exact IH].
    rewrite lookup_insert_ne by congruence.
    destruct (d !! other); [reflexivity | exact IH].
  - destruct (scopes st !! h) as [d |]; [| exact IH].
    destruct (d !! other); [reflexivity | exact IH].
Qed.

Lemma Var_eval_lookup host n name ctx st :
  eval host (S n) (Var name) ctx st
  = match Ctx_lookup st ctx name with
    | Some v => (Ok v, st)
    | None => (Raise (NameError ("variável " ++ name ++ " não existe!")), st)
    end.
Proof.
  simpl. unfold Ctx_getitem. destruct (Ctx_lookup st ctx name); reflexivity.
Qed.

(** X1.  After [name = value] on a bound name, the expression has yielded
    the value, reading [name] yields it again, and every other name reads
    as before. *)
Theorem Assign_then_Var :
  forall host n m name value ctx st v st1 s other,
    eval host n value ctx st = (Ok v, st1) ->
    Ctx_holder st1 ctx name = Some s ->
    other <> name ->
    eval host (S n) (Assign name value) ctx st
      = (Ok v, set_in_scope s name v st1)
    /\ eval host (S m) (Var name) ctx (set_in_scope s name v st1)
      = (Ok v, set_in_scope s name v st1)
    /\ Ctx_lookup (set_in_scope s name v st1) ctx other
      = Ctx_lookup st1 ctx other.
Proof.
  intros host n m name value ctx st v st1 s other Hv Hs Hne.
  split; [| split].
  - simpl. rewrite (bind_Ok _ _ _ _ _ Hv). unfold bind, Ctx_setitem.
    rewrite Hs. reflexivity.
  - rewrite Var_eval_lookup, (Ctx_lookup_set_same _ _ _ _ _ Hs). reflexivity.
  - apply Ctx_lookup_set_other. exact Hne.
Qed.

(** X2.  Assignment never declares: on a name that no scope of the context
    binds it raises [KeyError], after the value expression has run, and
    binds nothing. *)
Theorem Assign_unbound :
  forall host n name value ctx st v st1,
    eval host n value ctx st = (Ok v, st1) ->
    Ctx_lookup st1 ctx name = None ->
    eval host (S n) (Assign name value) ctx st = (Raise (KeyError name), st1).
Proof.
  intros host n name value ctx st v st1 Hv Hl.
  simpl. rewrite (bind_Ok _ _ _ _ _ Hv). unfold bind, Ctx_setitem.
  apply Ctx_holder_lookup in Hl. rewrite Hl. reflexivity.
Qed.

Lemma Ctx_lookup_declared st s parent name v d :
  scopes st !! s = Some d ->
  Ctx_lookup (set_in_scope s name v st) (s :: parent) name = Some v.
Proof.
  intros Hs. cbn [Ctx_lookup]. rewrite scopes_set_in_scope.
  rewrite decide_True by reflexivity. rewrite Hs. simpl.
  rewrite lookup_insert_eq. reflexivity.
Qed.

(** X3.  After [var name = value;] (or [var name;], which binds nil)
    reading [name] in the same context yields the value.  The binding goes
    into the innermost scope only: every other scope is as it was, so an
    outer binding of the same name is shadowed, not overwritten; other
    names read as before. *)
Theorem VarDef_then_Var :
  forall host n m name value s parent st v st1 d,
    match value with
    | Some e => eval host n e (s :: parent) st
    | None => (Ok VNil, st)
    end = (Ok v, st1) ->
    scopes st1 !! s = Some d ->
    exec host (S n) (VarDef name value) (s :: parent) st
      = (Ok tt, set_in_scope s name v st1)
    /\ eval host (S m) (Var name) (s :: parent) (set_in_scope s name v st1)
      = (Ok v, set_in_scope s name v st1)
    /\ (forall i, i <> s ->
          scopes (set_in_scope s name v st1) !! i = scopes st1 !! i)
    /\ (forall other, other <> name ->
          Ctx_lookup (set_in_scope s name v st1) (s :: parent) other
          = Ctx_lookup st1 (s :: parent) other).
Proof.
  intros host n m name value s parent st v st1 d Hv Hs.
  split; [| split; [| split]].
  - cbn [exec]. destruct value as [e |].
    + rewrite (bind_Ok _ _ _ _ _ Hv). reflexivity.
    + injection Hv as <- <-. reflexivity.
  - rewrite Var_eval_lookup, (Ctx_lookup_declared _ _ _ _ _ _ Hs).
    reflexivity.
  - intros i Hi. rewrite scopes_set_in_scope.
    rewrite decide_False by congruence. reflexivity.
  - intros other Hne. apply Ctx_lookup_set_other. exact Hne.
Qed.

(** X4.  A function declaration creates a function object that captures
    the context of the declaration, and binds the name to it in the
    innermost scope of that same context: the name is visible through the
    context the function captured. *)
Theorem Function_eval_declares :
  forall host n name params body s parent st d,
    scopes st !! s = Some d ->
    exists st',
      exec host (S n) (Function name params body) (s :: parent) st = (Ok tt, st')
      /\ objects st' !! length (objects st)
         = Some (mkLoxFunction name params body (s :: parent))
      /\ stdout st' = stdout st
      /\ Ctx_lookup st' (s :: parent) name = Some (VFun (length (objects st))).
Proof.
  intros host n name params body s parent st d Hs.
  eexists. split; [reflexivity |].
  split; [simpl; apply list_lookup_middle; reflexivity |].
  split; [reflexivity |].
  apply (Ctx_lookup_declared _ _ _ _ _ d). exact Hs.
Qed.


























Lemma for_each_app {A} (f : A -> M unit) xs ys st :
  for_each f (xs ++ ys) st = bind (for_each f xs) (fun _ => for_each f ys) st.
Proof.
  revert st. induction xs as [| x xs IH]; intros st; simpl.
  - reflexivity.
  - unfold bind. destruct (f x st) as [[[] | e | | ] st1]; try reflexivity.
    rewrite IH. reflexivity.
Qed.

Lemma for_each_stops {A} (f : A -> M unit) pre x post st st1 r st2 :
  for_each f pre st = (Ok tt, st1) ->
  f x st1 = (r, st2) ->
  r <> Ok tt ->
  for_each f (pre ++ x :: post) st = (r, st2).
Proof.
  intros Hpre Hx Hr. rewrite for_each_app. rewrite (bind_Ok _ _ _ _ _ Hpre).
  simpl. unfold bind. rewrite Hx.
  destruct r as [[] | e | | ]; try reflexivity. contradiction.
Qed.

(** X9.  A block stops at the first statement that does not complete: the
    statements after it are not executed and its outcome, an exception or
    the return signal, is the outcome of the block. *)
Theorem Block_eval_stops :
  forall host n pre s post ctx st st1 r st2,
    for_each (fun stmt => exec host n stmt (length (scopes st) :: ctx)) pre
       (mkStore (scopes st ++ [∅]) (objects st) (stdout st)) = (Ok tt, st1) ->
    exec host n s (length (scopes st) :: ctx) st1 = (r, st2) ->
    r <> Ok tt ->
    exec host (S n) (Block (pre ++ s :: post)%list) ctx st = (r, st2).
Proof.
  intros host n pre s post ctx st st1 r st2 Hpre Hs Hr.
  cbn [exec]. unfold bind at 1, Ctx_push.
  exact (for_each_stops _ _ _ _ _ _ _ _ Hpre Hs Hr).
Qed.

(** X10.  A program stops at the first statement that does not complete,
    in the same way; its statements run against the context it is given,
    with no scope of their own. *)
Theorem Program_eval_stops :
  forall host n pre s post ctx st st1 r st2,
    Program_eval host n pre ctx st = (Ok tt, st1) ->
    exec host n s ctx st1 = (r, st2) ->
    r <> Ok tt ->
    Program_eval host n (pre ++ s :: post)%list ctx st = (r, st2).
Proof.
  intros host n pre s post ctx st st1 r st2 Hpre Hs Hr.
  unfold Program_eval in *.
  exact (for_each_stops _ _ _ _ _ _ _ _ Hpre Hs Hr).
Qed.

(** X12.  A while loop that completes has just evaluated its condition to
    a value that Python's truth test rejects, and ends in the store that
    evaluation left. *)
Theorem While_eval_exit :
  forall host n expr stmt ctx st st',
    exec host n (While expr stmt) ctx st = (Ok tt, st') ->
    exists m st0 v,
      eval host m expr ctx st0 = (Ok v, st') /\ py_bool v = false.
Proof.
  intros host n expr stmt ctx. induction n as [| n IH]; intros st st' H.
  - discriminate.
  - cbn [exec] in H. unfold bind at 1 in H.
    destruct (eval host n expr ctx st) as [[c | e | | ] st1] eqn:Ec;
      try discriminate.
    destruct (py_bool c) eqn:Eb.
    + unfold bind in H.
      destruct (exec host n stmt ctx st1) as [[[] | e | | ] st2];
        try discriminate.
      exact (IH _ _ H).
    + injection H as <-. exists n, st, c. split; assumption.
Qed.

Lemma While_true_never_completes host n stmt ctx st :
  fst (exec host n (While (Literal (VBool true)) stmt) ctx st) <> Ok tt.
Proof.
  revert st. induction n as [| n IH]; intros st; [discriminate |].
  cbn [exec]. unfold bind at 1.
  destruct n as [| n]; [discriminate |].
  cbn [eval ret py_bool]. unfold bind.
  destruct (exec host (S n) stmt ctx st) as [[[] | e | | ] st1];
    try discriminate.
  apply IH.
Qed.

Lemma for_each_last_never_completes {A} (f : A -> M unit) xs x st :
  (forall st', fst (f x st') <> Ok tt) ->
  fst (for_each f (xs ++ [x]) st) <> Ok tt.
Proof.
  intros H. rewrite for_each_app. unfold bind.
  destruct (for_each f xs st) as [[[] | e | | ] st1]; try discriminate.
  simpl. unfold bind. specialize (H st1).
  destruct (f x st1) as [[[] | e | | ] st2]; simpl in *;
    try discriminate. contradiction.
Qed.

(** X13.  A [for] statement without a condition never completes: its loop
    tests the literal [true], so it ends by an exception, by the return
    signal, or not at all. *)
Theorem for_cmd_without_condition :
  forall host n init incr body ctx st,
    fst (exec host n (for_cmd init (for_cond []) incr body) ctx st) <> Ok tt.
Proof.
  intros host n init incr body ctx st.
  destruct n as [| n]; [discriminate |].
  unfold for_cmd. cbn [exec for_cond]. unfold bind at 1, Ctx_push.
  apply for_each_last_never_completes.
  intros st'. apply While_true_never_completes.
Qed.

(** X14.  [runtime.truthy] and [ast.is_truthy] are the same test, and
    Python's truth test departs from them exactly on the numbers equal to
    zero and on the empty text. *)
Theorem truthy_is_truthy :
  forall v,
    truthy v = is_truthy v
    /\ (py_bool v <> truthy v <->
        (exists x, v = VNum x /\ PrimFloat.eqb x 0 = true) \/ v = VStr "").
Proof.
  intros v. split; [destruct v as [| [|] | x | s | id]; reflexivity |].
  destruct v as [| [|] | x | s | id]; simpl.
  - split; [intros H; contradiction | intros [(x & H & _) | H]; discriminate].
  - split; [intros H; contradiction | intros [(x & H & _) | H]; discriminate].
  - split; [intros H; contradiction | intros [(x & H & _) | H]; discriminate].
  - destruct (PrimFloat.eqb x 0) eqn:E; simpl.
    + split; [intros _; left; exists x; auto | intros _; discriminate].
    + split; [intros H; contradiction |].
      intros [(y & [= <-] & Hy) | H]; [congruence | discriminate].
  - destruct (String.eqb_spec s ""); simpl.
    + subst. split; [intros _; right; reflexivity | intros _; discriminate].
    + split; [intros H; contradiction |].
      intros [(y & H & _) | [= H]]; [discriminate | contradiction].
  - split; [intros H; contradiction | intros [(x & H & _) | H]; discriminate].
Qed.

(** X11.  A [return] in the body of a loop ends the loop: the statements
    after it are skipped, the condition is not evaluated again, and the
    loop ends with the return signal carrying the value (nil when the
    statement has no expression). *)
Theorem Return_unwinds_loop :
  forall host n cond pre expr post ctx st c st1 st2 v st3,
    eval host (S (S n)) cond ctx st = (Ok c, st1) ->
    py_bool c = true ->
    for_each (fun stmt => exec host (S n) stmt (length (scopes st1) :: ctx)) pre
       (mkStore (scopes st1 ++ [∅]) (objects st1) (stdout st1)) = (Ok tt, st2) ->
    match expr with
    | Some e => eval host n e (length (scopes st1) :: ctx) st2
    | None => (Ok VNil, st2)
    end = (Ok v, st3) ->
    exec host (S (S (S n)))
         (While cond (Block (pre ++ Return expr :: post)%list)) ctx st
    = (Raise (LoxReturn [v]), st3).
Proof.
  intros host n cond pre expr post ctx st c st1 st2 v st3 Hc Hb Hpre Hv.
  rewrite (While_eval_condition _ _ _ _ _ _ _ _ Hc), Hb.
  assert (Hr : exec host (S n) (Return expr) (length (scopes st1) :: ctx) st2
               = (Raise (LoxReturn [v]), st3)).
  { cbn [exec]. destruct expr as [e |].
    - rewrite (bind_Ok _ _ _ _ _ Hv). reflexivity.
    - injection Hv as <- <-. reflexivity. }
  assert (Hblock : exec host (S (S n)) (Block (pre ++ Return expr :: post)%list)
                     ctx st1 = (Raise (LoxReturn [v]), st3)).
  { cbn [exec]. unfold bind at 1, Ctx_push.
    apply (for_each_stops _ _ _ _ _ _ _ _ Hpre Hr). discriminate. }
  unfold bind. rewrite Hblock. reflexivity.
Qed.

(** X15.  Dividing by a number equal to zero (0, -0, or [false]) raises
    [ZeroDivisionError], whatever the dividend: the quotient is never an
    infinity or a NaN. *)
Theorem truediv_by_zero :
  forall host n lhs rhs ctx st a st1 b st2 x y,
    eval host n lhs ctx st = (Ok a, st1) ->
    eval host n rhs ctx st1 = (Ok b, st2) ->
    as_number a = Some x ->
    as_number b = Some y ->
    PrimFloat.eqb y 0 = true ->
    exists msg,
      eval host (S n) (BinOp lhs rhs op_truediv) ctx st
      = (Raise (ZeroDivisionError msg), st2).
Proof.
  intros host n lhs rhs ctx st a st1 b st2 x y Ha Hb Hx Hy Hz.
  rewrite (BinOp_eval _ _ _ _ _ _ _ _ _ _ _ Ha Hb).
  unfold apply_binop. rewrite Hx, Hy. simpl. rewrite Hz.
  eexists. reflexivity.
Qed.

(** X16.  When [+] yields a value, its operands were two numbers (a
    boolean counting as 1 or 0), and the value is their float sum, or two
    texts, and the value is their concatenation; the operator itself
    leaves the store alone. *)
Theorem add_numbers_or_texts :
  forall host n lhs rhs ctx st a st1 b st2 v st3,
    eval host n lhs ctx st = (Ok a, st1) ->
    eval host n rhs ctx st1 = (Ok b, st2) ->
    eval host (S n) (BinOp lhs rhs op_add) ctx st = (Ok v, st3) ->
    st3 = st2
    /\ ((exists x y, as_number a = Some x /\ as_number b = Some y
                     /\ v = VNum (x + y)%float)
        \/ (exists s t, a = VStr s /\ b = VStr t /\ v = VStr (s ++ t))).
Proof.
  intros host n lhs rhs ctx st a st1 b st2 v st3 Ha Hb H.
  rewrite (BinOp_eval _ _ _ _ _ _ _ _ _ _ _ Ha Hb) in H.
  destruct a as [| c | x | s | i], b as [| c' | y | t | j];
    simpl in H; try discriminate;
      injection H as <- <-; split; try reflexivity;
        try (left; eexists _, _; repeat split; reflexivity).
  right. eexists _, _. repeat split; reflexivity.
Qed.






Lemma drop_last_snoc s c : drop_last (s ++ String c EmptyString) = s.
Proof.
  induction s as [| a s IH]; simpl; [reflexivity |].
  rewrite IH. destruct s; reflexivity.
Qed.

(** X17.  [show_repr] puts a text between two double quotes, and [STRING]
    reads it back: the literal of the text itself. *)
Theorem STRING_show_repr :
  forall host st s,
    STRING (show_repr host st (VStr s)) = Literal (VStr s)
    /\ String.length (show_repr host st (VStr s)) = S (S (String.length s)).
Proof.
  intros host st s. split.
  - unfold STRING, show_repr, slice_inner. rewrite drop_last_snoc. reflexivity.
  - simpl. f_equal. induction s as [| a s IH]; simpl; [reflexivity |].
    rewrite IH. reflexivity.
Qed.

Lemma has_char_app c s t : has_char c (s ++ t) = has_char c s || has_char c t.
Proof.
  induction s as [| a s IH]; simpl; [reflexivity |].
  rewrite IH. apply orb_assoc.
Qed.

Lemma has_char_not_digits c s :
  is_decimal_digit c = false -> has_char c s = true -> all_digits s = false.
Proof.
  intros Hc. induction s as [| a s IH]; simpl; [discriminate |].
  destruct (Ascii.eqb_spec c a) as [<- | Hne]; simpl.
  - intros _. rewrite Hc. reflexivity.
  - intros H. rewrite (IH H). apply andb_false_r.
Qed.

Lemma has_char_not_numeral c s :
  is_decimal_digit c = false -> c <> "-"%char ->
  has_char c s = true -> integer_numeral s = false.
Proof.
  intros Hc Hm H. unfold integer_numeral.
  destruct s as [| a s]; [discriminate |].
  destruct (Ascii.eqb_spec a "-") as [-> | Hne].
  - simpl in H. destruct (Ascii.eqb_spec c "-"); [contradiction |].
    simpl in H. eapply has_char_not_digits; eassumption.
  - assert (E : all_digits (String a s) = false)
      by (eapply has_char_not_digits; eassumption).
    destruct a as [[|] [|] [|] [|] [|] [|] [|] [|]]; try exact E.
    contradiction Hne. reflexivity.
Qed.

Lemma format_short_marked ds decpt :
  has_char "." (format_short ds decpt) || has_char "e" (format_short ds decpt)
  = true.
Proof.
  unfold format_short.
  destruct ((decpt <=? -4)%Z || (16 <? decpt)%Z).
  - apply orb_true_iff. right.
    rewrite has_char_app, has_char_app. simpl. apply orb_true_r.
  - destruct (decpt <=? 0)%Z.
    + reflexivity.
    + destruct (Z.of_nat (String.length ds) <=? decpt)%Z.
      * apply orb_true_iff. left. rewrite !has_char_app. simpl.
        rewrite !orb_true_r. reflexivity.
      * apply orb_true_iff. left. rewrite !has_char_app. simpl.
        rewrite !orb_true_r. reflexivity.
Qed.

Lemma float_repr_not_numeral x : integer_numeral (float_repr x) = false.
Proof.
  unfold float_repr. destruct (Prim2SF x) as [[|] | [|] | | s m e];
    try reflexivity.
  destruct (shortest _ _ _ _) as [d k].
  set (body := format_short _ _).
  pose proof (format_short_marked (str_int d)
                (Z.of_nat (String.length (str_int d)) + k)) as H.
  fold body in H. apply orb_true_iff in H.
  destruct H as [H | H].
  - apply (has_char_not_numeral "."); [reflexivity | discriminate |].
    rewrite has_char_app, H. apply orb_true_r.
  - apply (has_char_not_numeral "e"); [reflexivity | discriminate |].
    rewrite has_char_app, H. apply orb_true_r.
Qed.

(** X18.  [runtime.show] and the print statement agree on texts, on
    function objects and on numbers that are not integral; they differ on
    nil, on both booleans and on every integral number, which [show]
    writes with a decimal point or an exponent. *)
Theorem show_differs_from_Print :
  forall host st v,
    match v with
    | VNil | VBool _ => show host st v <> Print_line host st v
    | VNum x =>
        if float_is_integer x
        then show host st v <> Print_line host st v
        else show host st v = Print_line host st v
    | VStr _ | VFun _ => show host st v = Print_line host st v
    end.
Proof.
  intros host st v. destruct v as [| [|] | x | s | id]; try discriminate;
    try reflexivity.
  unfold show, Print_line; simpl.
  destruct (float_is_integer x); [| reflexivity].
  intros H.
  pose proof (float_repr_not_numeral x) as Hn.
  rewrite H, str_int_numeral in Hn. discriminate.
Qed.

Lemma getatributo_app value attrs attrs' :
  getatributo value (attrs ++ attrs')
  = match getatributo value attrs with
    | Ok e => getatributo e attrs'
    | r => r
    end.
Proof.
  revert value. induction attrs as [| a attrs IH]; intros value; simpl.
  - reflexivity.
  - destruct (node_name a); [apply IH | reflexivity].
Qed.

(** X19.  The target of an attribute write is built from the attribute
    read: when [value.a...] is built for the names before the last,
    [setattr] turns the read of the whole path into a write of its last
    name on that node. *)
Theorem setattr_getatributo :
  forall value attrs name target e,
    getatributo value attrs = Ok target ->
    match getatributo value (attrs ++ [Var name]) with
    | Ok obj => setattr obj e = Ok (Setattr target name e)
    | _ => False
    end.
Proof.
  intros value attrs name target e H.
  rewrite getatributo_app, H. reflexivity.
Qed.

Lemma for_each_var_def_scope s parent l st d :
  scopes st !! s = Some d ->
  scopes (snd (for_each (fun pa => Ctx_var_def (s :: parent) (fst pa) (snd pa))
                 l st)) !! s
  = Some (bound_scope d l).
Proof.
  revert st d. induction l as [| [p a] l IH]; intros st d Hs; simpl.
  - exact Hs.
  - unfold bind. simpl. apply IH.
    unfold set_in_scope; simpl. rewrite list_lookup_alter_eq, Hs. reflexivity.
Qed.

Lemma bound_scope_other d l p :
  p ∉ l.*1 -> bound_scope d l !! p = d !! p.
Proof.
  revert d. induction l as [| [q a] l IH]; intros d Hp; simpl; [reflexivity |].
  rewrite fmap_cons in Hp. apply not_elem_of_cons in Hp as [Hne Hp].
  rewrite (IH _ Hp). apply lookup_insert_ne. simpl in *. congruence.
Qed.

Lemma bound_scope_lookup d l i p a :
  NoDup l.*1 -> l !! i = Some (p, a) -> bound_scope d l !! p = Some a.
Proof.
  revert d i. induction l as [| [q b] l IH]; intros d i Hnd Hi;
    [discriminate |].
  rewrite fmap_cons in Hnd. apply NoDup_cons in Hnd as [Hq Hnd].
  destruct i as [| i]; simpl in *.
  - injection Hi as -> ->. rewrite (bound_scope_other _ _ _ Hq).
    apply lookup_insert_eq.
  - eapply IH; eassumption.
Qed.

(** X21.  The first definition of [call] (the one the second replaces), on
    a right argument count and distinct parameter names: the body runs in
    a fresh scope under the captured context where each parameter reads as
    the argument at its position; the call gives nil when the body
    completes and passes every exception but the return signal through. *)
Theorem LoxFunction_call_shadowed_binds :
  forall host fuel self args st,
    length args = length (fn_params self) ->
    NoDup (fn_params self) ->
    exists st1,
      (forall i p a,
          fn_params self !! i = Some p -> args !! i = Some a ->
          Ctx_lookup st1 (length (scopes st) :: fn_ctx self) p = Some a)
      /\ LoxFunction_call_shadowed host fuel self args st
         = match exec host fuel (fn_body self)
                   (length (scopes st) :: fn_ctx self) st1 with
           | (Ok _, st') => (Ok VNil, st')
           | (Raise (LoxReturn _), st') =>
               (Raise (AttributeError
                         "'LoxReturn' object has no attribute 'value'"), st')
           | (Raise e, st') => (Raise e, st')
           | (HostObject, st') => (HostObject, st')
           | (OutOfFuel, st') => (OutOfFuel, st')
           end.
Proof.
  intros host fuel self args st Hlen Hnd.
  eexists. split; [| apply LoxFunction_call_shadowed_runs; exact Hlen].
  intros i p a Hp Ha. cbn [Ctx_lookup].
  rewrite (for_each_var_def_scope _ _ _ _ ∅).
  - erewrite bound_scope_lookup; [reflexivity | |].
    + rewrite fst_zip by lia. exact Hnd.
    + apply lookup_zip_with_Some. eauto.
  - simpl. apply list_lookup_middle. reflexivity.
Qed.

Lemma SFcompare_refl f :
  f <> S754_nan -> SFcompare f f = Some Eq.
Proof.
  intros H. destruct f as [[|] | [|] | | [|] m e]; simpl;
    try reflexivity; try contradiction;
    rewrite Z.compare_refl, ?Pos.compare_refl; reflexivity.
Qed.

Lemma float_eqb_refl x :
  Prim2SF x <> S754_nan -> PrimFloat.eqb x x = true.
Proof.
  intros H. rewrite FloatAxioms.eqb_spec. unfold SFeqb.
  rewrite (SFcompare_refl _ H). reflexivity.
Qed.

Lemma float_eqb_nan x :
  Prim2SF x = S754_nan -> PrimFloat.eqb x x = false.
Proof. intros H. rewrite FloatAxioms.eqb_spec, H. reflexivity. Qed.

(** X22.  [==] holds between a value and itself for every value but a NaN
    number. *)
Theorem py_eq_reflexive :
  forall host st v,
    py_eq host st v v
    = match v with
      | VNum x => match Prim2SF x with S754_nan => false | _ => true end
      | _ => true
      end.
Proof.
  intros host st v. destruct v as [| [|] | x | s | id]; simpl;
    try reflexivity.
  - destruct (Prim2SF x) eqn:E;
      try (apply float_eqb_refl; rewrite E; discriminate).
    apply float_eqb_nan. exact E.
  - apply String.eqb_refl.
  - rewrite Nat.eqb_refl. reflexivity.
Qed.

(** X23.  When an ordering operator yields a value, the value is a
    boolean and the operands were two numbers or two texts. *)
Theorem ordering_numbers_or_texts :
  forall host n lhs rhs op ctx st a st1 b st2 v st3,
    is_ordering op = true ->
    eval host n lhs ctx st = (Ok a, st1) ->
    eval host n rhs ctx st1 = (Ok b, st2) ->
    eval host (S n) (BinOp lhs rhs op) ctx st = (Ok v, st3) ->
    st3 = st2
    /\ (exists c, v = VBool c)
    /\ ((exists x y, as_number a = Some x /\ as_number b = Some y)
        \/ (exists s t, a = VStr s /\ b = VStr t)).
Proof.
  intros host n lhs rhs op ctx st a st1 b st2 v st3 Hop Ha Hb H.
  rewrite (BinOp_eval _ _ _ _ _ _ _ _ _ _ _ Ha Hb) in H.
  destruct op; try discriminate Hop;
    destruct a as [| c | x | s | i], b as [| c' | y | t | j];
    simpl in H; try discriminate;
      injection H as <- <-; (split; [reflexivity |]);
        (split; [eexists; reflexivity |]);
        first [ left; eexists _, _; split; reflexivity
              | right; eexists _, _; split; reflexivity ].
Qed.



(** ** The further properties at work *)




(** [x = 1] where [x] is 0: the expression yields 1 and [x] reads 1. *)
Lemma Assign_then_Var_witness :
  eval plain_host 2 assign_x root_ctx store_x
    = (Ok (VNum 1), set_in_scope 0 "x" (VNum 1) store_x)
  /\ eval plain_host 1 (Var "x") root_ctx (set_in_scope 0 "x" (VNum 1) store_x)
    = (Ok (VNum 1), set_in_scope 0 "x" (VNum 1) store_x).
Proof.
  pose proof (Assign_then_Var plain_host 1 0 "x" (Literal (VNum 1)) root_ctx
                store_x (VNum 1) store_x 0%nat "y"
                eq_refl ltac:(vm_compute; reflexivity) ltac:(discriminate))
    as [H1 [H2 _]].
  exact (conj H1 H2).
Defined.

(** [y = 1] where only [x] is bound. *)
Lemma Assign_unbound_witness :
  eval plain_host 2 (Assign "y" (Literal (VNum 1))) root_ctx store_x
  = (Raise (KeyError "y"), store_x).
Proof.
  exact (Assign_unbound plain_host 1 "y" (Literal (VNum 1)) root_ctx
           store_x (VNum 1) store_x eq_refl ltac:(vm_compute; reflexivity)).
Defined.

(** [var y = 2;] at top level, where [x] is bound. *)
Lemma VarDef_then_Var_witness :
  exec plain_host 2 (VarDef "y" (Some (Literal (VNum 2)))) root_ctx store_x
    = (Ok tt, set_in_scope 0 "y" (VNum 2) store_x)
  /\ eval plain_host 1 (Var "y") root_ctx (set_in_scope 0 "y" (VNum 2) store_x)
    = (Ok (VNum 2), set_in_scope 0 "y" (VNum 2) store_x).
Proof.
  pose proof (VarDef_then_Var plain_host 1 0 "y" (Some (Literal (VNum 2)))
                0%nat [] store_x (VNum 2) store_x (<["x" := VNum 0]> ∅)
                eq_refl eq_refl)
    as [H1 [H2 _]].
  exact (conj H1 H2).
Defined.

(** [fun f() {}] at top level of a fresh interpreter. *)
Lemma Function_eval_declares_witness :
  exists st',
    exec plain_host 1 (Function "f" [] (Block [])) root_ctx empty_store
      = (Ok tt, st')
    /\ Ctx_lookup st' root_ctx "f" = Some (VFun 0).
Proof.
  destruct (Function_eval_declares plain_host 0 "f" [] (Block []) 0%nat []
              empty_store ∅ eq_refl)
    as (st' & H1 & _ & _ & H2).
  exists st'. exact (conj H1 H2).
Defined.





(** [{ print "a"; return; print "b"; }] *)
Lemma Block_eval_stops_witness :
  exec plain_host 3
       (Block [Print (Literal (VStr "a")); Return None;
               Print (Literal (VStr "b"))])
       root_ctx empty_store
  = (Raise (LoxReturn [VNil]), mkStore [∅; ∅] [] ["a"]).
Proof.
  exact (Block_eval_stops plain_host 2 [Print (Literal (VStr "a"))]
           (Return None) [Print (Literal (VStr "b"))] root_ctx empty_store
           (mkStore [∅; ∅] [] ["a"]) (Raise (LoxReturn [VNil]))
           (mkStore [∅; ∅] [] ["a"])
           eq_refl eq_refl ltac:(discriminate)).
Defined.

(** [print "a"; print x; print "b";] where [x] is not bound. *)
Lemma Program_eval_stops_witness :
  Program_eval plain_host 2
       [Print (Literal (VStr "a")); Print (Var "x");
        Print (Literal (VStr "b"))]
       root_ctx empty_store
  = (Raise (NameError "variável x não existe!"), mkStore [∅] [] ["a"]).
Proof.
  exact (Program_eval_stops plain_host 2 [Print (Literal (VStr "a"))]
           (Print (Var "x")) [Print (Literal (VStr "b"))] root_ctx empty_store
           (mkStore [∅] [] ["a"])
           (Raise (NameError "variável x não existe!"))
           (mkStore [∅] [] ["a"])
           eq_refl eq_refl ltac:(discriminate)).
Defined.

(** [while (true) { print "a"; return 1; print "b"; }] *)
Lemma Return_unwinds_loop_witness :
  exec plain_host 4
       (While (Literal (VBool true))
          (Block [Print (Literal (VStr "a"));
                  Return (Some (Literal (VNum 1)));
                  Print (Literal (VStr "b"))]))
       root_ctx empty_store
  = (Raise (LoxReturn [VNum 1]), mkStore [∅; ∅] [] ["a"]).
Proof.
  exact (Return_unwinds_loop plain_host 1 (Literal (VBool true))
           [Print (Literal (VStr "a"))] (Some (Literal (VNum 1)))
           [Print (Literal (VStr "b"))] root_ctx empty_store
           (VBool true) empty_store (mkStore [∅; ∅] [] ["a"]) (VNum 1)
           (mkStore [∅; ∅] [] ["a"])
           eq_refl eq_refl eq_refl eq_refl).
Defined.

(** [while (x) x = 0;] where [x] is 0 from the start. *)
Lemma While_eval_exit_witness :
  exists m st0 v,
    eval plain_host m (Var "x") root_ctx st0 = (Ok v, store_x)
    /\ py_bool v = false.
Proof.
  exact (While_eval_exit plain_host 2 (Var "x")
           (ExprStmt (Assign "x" (Literal (VNum 0)))) root_ctx store_x store_x
           ltac:(vm_compute; reflexivity)).
Defined.

(** [1 / 0] *)
Lemma truediv_by_zero_witness :
  exists msg,
    eval plain_host 2 (BinOp (Literal (VNum 1)) (Literal (VNum 0)) op_truediv)
         root_ctx empty_store
    = (Raise (ZeroDivisionError msg), empty_store).
Proof.
  exact (truediv_by_zero plain_host 1 (Literal (VNum 1)) (Literal (VNum 0))
           root_ctx empty_store (VNum 1) empty_store (VNum 0) empty_store
           1%float 0%float eq_refl eq_refl eq_refl eq_refl eq_refl).
Defined.

(** ["a" + "b"] *)
Lemma add_numbers_or_texts_witness :
  empty_store = empty_store
  /\ ((exists x y, as_number (VStr "a") = Some x /\ as_number (VStr "b") = Some y
                   /\ VStr "ab" = VNum (x + y)%float)
      \/ (exists s t, VStr "a" = VStr s /\ VStr "b" = VStr t
                      /\ VStr "ab" = VStr (s ++ t))).
Proof.
  exact (add_numbers_or_texts plain_host 1 (Literal (VStr "a"))
           (Literal (VStr "b")) root_ctx empty_store (VStr "a") empty_store
           (VStr "b") empty_store (VStr "ab") empty_store
           eq_refl eq_refl eq_refl).
Defined.

(** [x.a.b = 1] *)
Lemma setattr_getatributo_witness :
  match getatributo (Var "x") [Var "a"; Var "b"] with
  | Ok obj =>
      setattr obj (Literal (VNum 1))
      = Ok (Setattr (Getattr (Var "x") "a") "b" (Literal (VNum 1)))
  | _ => False
  end.
Proof.
  exact (setattr_getatributo (Var "x") [Var "a"] "b" (Getattr (Var "x") "a")
           (Literal (VNum 1)) eq_refl).
Defined.

(** One argument for two parameters. *)
Lemma LoxFunction_call_shadowed_arity_witness :
  LoxFunction_call_shadowed plain_host 5 binary_function [VNum 1] empty_store
  = (Raise (RuntimeError "Expected 2 arguments but got 1."), empty_store).
Proof.
  exact (LoxFunction_call_shadowed_arity plain_host 5 binary_function
           [VNum 1] empty_store ltac:(discriminate)).
Defined.

(** Two arguments for the two parameters [a] and [b]. *)
Lemma LoxFunction_call_shadowed_binds_witness :
  exists st1,
    Ctx_lookup st1 [1%nat; 0%nat] "a" = Some (VNum 1)
    /\ Ctx_lookup st1 [1%nat; 0%nat] "b" = Some (VNum 2).
Proof.
  destruct (LoxFunction_call_shadowed_binds plain_host 5 binary_function
              [VNum 1; VNum 2] empty_store eq_refl
              ltac:(apply NoDup_cons; split; [intros H; apply list_elem_of_singleton in H; discriminate | apply NoDup_singleton]))
    as (st1 & H & _).
  exists st1. split.
  - exact (H 0%nat "a" (VNum 1) eq_refl eq_refl).
  - exact (H 1%nat "b" (VNum 2) eq_refl eq_refl).
Defined.

(** [1 < 2] *)
Lemma ordering_numbers_or_texts_witness :
  exists c, VBool true = VBool c.
Proof.
  exact (proj1 (proj2
           (ordering_numbers_or_texts plain_host 1 (Literal (VNum 1))
              (Literal (VNum 2)) op_lt root_ctx empty_store (VNum 1)
              empty_store (VNum 2) empty_store (VBool true) empty_store
              eq_refl eq_refl eq_refl eq_refl))).
Defined.
